(** * Campus Lost & Found: the request handlers over a document store

    A shallow embedding of the Express handlers of the campus lost-and-found
    application.  Two iterations of the server are embedded:

    - [Registry] is the variant whose universities live in the database
      (src/unnamed/part_000).  Its user schema is annotated
      "Storing Plain Text" and its login compares the stored password with
      [===].
    - [Hashed] is the variant with the hard-coded university list and
      bcrypt-hashed passwords (src/unnamed/part_001).

    Conventions of the embedding.

    - A JavaScript string is a [string]: a sequence of characters with code
      below 256.  Letter case is folded on the letters of that range: the
      ASCII letters and the accented letters of Latin-1.  White space is
      what [String.prototype.trim] strips in that range.
    - A form or query field is an [option string]: [None] is [undefined].
      Fields that carry arrays or nested objects are not embedded.
    - A MongoDB collection is the list of its documents in insertion order;
      [ObjectId]s are numbers.  A route parameter [:id] is [None] when the
      text is no ObjectId (Mongoose then throws a CastError).
    - The model's setters and validators ([trim], [required], [enum],
      [unique]) are those the schemas of the source declare.  Mongoose runs
      a path's setters both when a document field is assigned and when a
      filter value is cast for a query.
    - A handler is a function from the database, the session and the request
      to the response, the new database and the new session.  A thrown
      exception is a [Throw]; the [try]/[catch] of each handler turns it into
      the response of its [catch] block. *)

From Stdlib Require Import NArith ZArith List String Ascii Bool Lia Btauto.
From Stdlib Require Import Sorting.Sorted Sorting.Permutation.
Import ListNotations.
Local Open Scope string_scope.

(** ** JavaScript strings *)

Module Js.

(** [!x] of the source is false exactly on these values. *)
Definition truthy (x : option string) : bool :=
  match x with
  | None => false
  | Some EmptyString => false
  | Some (String _ _) => true
  end.

Definition opt_eqb (x y : option string) : bool :=
  match x, y with
  | Some a, Some b => String.eqb a b
  | None, None => true
  | _, _ => false
  end.

(** White space and line terminators below code 256: TAB, LF, VT, FF, CR,
    SPACE and NBSP. *)
Definition is_space (c : ascii) : bool :=
  let n := N_of_ascii c in
  ((9 <=? n) && (n <=? 13) || (n =? 32) || (n =? 160))%N.

Fixpoint trimStart (s : string) : string :=
  match s with
  | EmptyString => EmptyString
  | String c s' => if is_space c then trimStart s' else s
  end.

Fixpoint trimEnd (s : string) : string :=
  match s with
  | EmptyString => EmptyString
  | String c s' =>
      match trimEnd s' with
      | EmptyString => if is_space c then EmptyString else String c EmptyString
      | t => String c t
      end
  end.

Definition trim (s : string) : string := trimEnd (trimStart s).

(** The letters with a lower-case partner below code 256: A to Z (65 to 90)
    and the accented capitals from A-grave to THORN (192 to 222) without the
    multiplication sign (215).  Each partner is 32 above.  The characters
    whose partner lies at or above 256 (MICRO SIGN, SHARP S, Y-diaeresis)
    are their own image.  [String.prototype.toLowerCase] and the store's
    case-insensitive matching agree on this folding in that range. *)
Definition is_upper (c : ascii) : bool :=
  let n := N_of_ascii c in
  ((65 <=? n) && (n <=? 90)
   || (192 <=? n) && (n <=? 222) && negb (n =? 215))%N.

Definition lower_ascii (c : ascii) : ascii :=
  if is_upper c then ascii_of_N (N_of_ascii c + 32) else c.

Fixpoint toLowerCase (s : string) : string :=
  match s with
  | EmptyString => EmptyString
  | String c s' => String (lower_ascii c) (toLowerCase s')
  end.

End Js.

(** ** Regular expressions

    The application hands two user-supplied strings to the regular
    expression engine: the [search] parameter of [GET /items] and the
    [newUniversity] field of [POST /add-university].  The fragment embedded
    here has literal characters, [.], the anchors [^] and [$], groups,
    alternation, the postfix operators [*], [+], [?] and a backslash before
    a syntax character.  A pattern outside the fragment compiles to
    [Unsupported]: the embedding says nothing about it.

    Both expressions are evaluated by the database server, whose engine is
    PCRE: [.] matches every character but the line feed, and [$] holds at
    the end of the subject and before a line feed that ends it. *)

Module Regex.

Inductive regex : Type :=
| Empty
| Never
| Char (c : ascii)
| Dot
| Bol
| Eol
| Seq (r1 r2 : regex)
| Alt (r1 r2 : regex)
| Star (r : regex).

Inductive compiled : Type :=
| Compiled (r : regex)
| SyntaxError
| Unsupported.

(** *** Reading a pattern *)

Definition is_syntax_char (c : ascii) : bool :=
  existsb (Ascii.eqb c)
    ["\"; "^"; "$"; "."; "|"; "?"; "*"; "+"; "("; ")"; "["; "]"; "{"; "}"]%char.

(** A group under construction: the alternatives already closed by [|],
    and the atoms of the current alternative, last one first.  The flag of
    an atom says whether a postfix operator may still follow it. *)
Record frame : Type := {
  alts : list regex;
  cur : list (regex * bool)
}.

Definition empty_frame : frame := {| alts := []; cur := [] |}.

Definition seq_of (atoms : list (regex * bool)) : regex :=
  fold_left (fun acc a => Seq (fst a) acc) atoms Empty.

Definition close (f : frame) : regex :=
  fold_left (fun acc r => Alt r acc) f.(alts) (seq_of f.(cur)).

Definition push_atom (r : regex) (quantifiable : bool) (f : frame) : frame :=
  {| alts := f.(alts); cur := (r, quantifiable) :: f.(cur) |}.

Definition next_alt (f : frame) : frame :=
  {| alts := seq_of f.(cur) :: f.(alts); cur := [] |}.

Definition is_fresh (f : frame) : bool :=
  match f.(alts), f.(cur) with
  | [], [] => true
  | _, _ => false
  end.

Definition postfix (op : ascii) (r : regex) : regex :=
  if Ascii.eqb op "*" then Star r
  else if Ascii.eqb op "+" then Seq r (Star r)
  else Alt r Empty.

(** A postfix operator applies to the last atom.  With nothing before it
    the pattern is malformed.  After an anchor or another postfix operator,
    and as a question mark or a star right after an opening parenthesis,
    it belongs to syntax the fragment leaves out. *)
Definition quantify (op : ascii) (in_group : bool) (f : frame)
  : option (option frame) :=
  match f.(cur) with
  | [] =>
      if in_group && is_fresh f && negb (Ascii.eqb op "+") then Some None
      else None
  | (r, true) :: rest =>
      Some (Some {| alts := f.(alts); cur := (postfix op r, false) :: rest |})
  | (_, false) :: _ => Some None
  end.

Fixpoint parse (s : string) (escaped : bool) (top : frame)
  (stack : list frame) : compiled :=
  match s with
  | EmptyString =>
      if escaped then SyntaxError
      else match stack with
           | [] => Compiled (close top)
           | _ :: _ => SyntaxError
           end
  | String c s' =>
      if escaped then
        if is_syntax_char c then parse s' false (push_atom (Char c) true top) stack
        else Unsupported
      else if Ascii.eqb c "\" then parse s' true top stack
      else if Ascii.eqb c "(" then parse s' false empty_frame (top :: stack)
      else if Ascii.eqb c ")" then
        match stack with
        | [] => SyntaxError
        | f :: stack' => parse s' false (push_atom (close top) true f) stack'
        end
      else if Ascii.eqb c "|" then parse s' false (next_alt top) stack
      else if Ascii.eqb c "*" || Ascii.eqb c "+" || Ascii.eqb c "?" then
        match quantify c (match stack with [] => false | _ => true end) top with
        | None => SyntaxError
        | Some None => Unsupported
        | Some (Some top') => parse s' false top' stack
        end
      else if Ascii.eqb c "." then parse s' false (push_atom Dot true top) stack
      else if Ascii.eqb c "^" then parse s' false (push_atom Bol false top) stack
      else if Ascii.eqb c "$" then parse s' false (push_atom Eol false top) stack
      else if is_syntax_char c then Unsupported
      else parse s' false (push_atom (Char c) true top) stack
  end.

Definition compile (pattern : string) : compiled :=
  parse pattern false empty_frame [].

(** *** Matching

    Matching goes by derivatives.  [bos] says that no character of the
    subject has been read yet, so [^] holds; [eol] says that [$] holds at
    the current position: at the end of the subject and before a line feed
    that ends it. *)

Definition LF : ascii := ascii_of_N 10.

(** Under option [i] two characters match when folding letter case gives
    the same character: an ASCII or accented capital matches its small
    letter. *)
Definition char_eq (ci : bool) (a c : ascii) : bool :=
  if ci then Ascii.eqb (Js.lower_ascii a) (Js.lower_ascii c)
  else Ascii.eqb a c.

Definition at_eol (rest : string) : bool :=
  match rest with
  | EmptyString => true
  | String c EmptyString => Ascii.eqb c LF
  | _ => false
  end.

Fixpoint nullable (bos eol : bool) (r : regex) : bool :=
  match r with
  | Empty => true
  | Never => false
  | Char _ => false
  | Dot => false
  | Bol => bos
  | Eol => eol
  | Seq r1 r2 => nullable bos eol r1 && nullable bos eol r2
  | Alt r1 r2 => nullable bos eol r1 || nullable bos eol r2
  | Star _ => true
  end.

Fixpoint deriv (ci bos eol : bool) (c : ascii) (r : regex) : regex :=
  match r with
  | Empty => Never
  | Never => Never
  | Char a => if char_eq ci a c then Empty else Never
  | Dot => if Ascii.eqb c LF then Never else Empty
  | Bol => Never
  | Eol => Never
  | Seq r1 r2 =>
      let d := Seq (deriv ci bos eol c r1) r2 in
      if nullable bos eol r1 then Alt d (deriv ci bos eol c r2) else d
  | Alt r1 r2 => Alt (deriv ci bos eol c r1) (deriv ci bos eol c r2)
  | Star r1 => Seq (deriv ci bos eol c r1) (Star r1)
  end.

(** Does [r] match some prefix of [s]? *)
Fixpoint match_here (ci bos : bool) (r : regex) (s : string) : bool :=
  nullable bos (at_eol s) r
  || match s with
     | EmptyString => false
     | String c s' => match_here ci false (deriv ci bos (at_eol s) c r) s'
     end.

(** Does [r] match somewhere in [s]? *)
Fixpoint search (ci bos : bool) (r : regex) (s : string) : bool :=
  match_here ci bos r s
  || match s with
     | EmptyString => false
     | String _ s' => search ci false r s'
     end.

Definition test (ci : bool) (r : regex) (subject : string) : bool :=
  search ci true r subject.

End Regex.

(** ** Documents, collections and schemas *)

Definition ObjectId : Type := N.

(** [UserSchema]: [name], [email] (unique) and [password], all required. *)
Module User.
Record t : Type := {
  _id : ObjectId;
  name : string;
  email : string;
  password : string
}.
End User.

(** [ItemSchema], with the two fields of [timestamps: true]. *)
Module Item.
Record t : Type := {
  _id : ObjectId;
  name : string;
  description : string;
  status : string;
  category : string;
  university : string;
  imageUrl : string;
  contactEmail : string;
  contactPhone : string;
  reportedBy : ObjectId;
  createdAt : Z;
  updatedAt : Z
}.

(** The paths a handler can assign: all but [_id] and the timestamps. *)
Definition same_paths (a b : t) : bool :=
  String.eqb a.(name) b.(name)
  && String.eqb a.(description) b.(description)
  && String.eqb a.(status) b.(status)
  && String.eqb a.(category) b.(category)
  && String.eqb a.(university) b.(university)
  && String.eqb a.(imageUrl) b.(imageUrl)
  && String.eqb a.(contactEmail) b.(contactEmail)
  && String.eqb a.(contactPhone) b.(contactPhone)
  && N.eqb a.(reportedBy) b.(reportedBy).
End Item.

(** [UniversitySchema]: a required, unique, trimmed [name]. *)
Module University.
Record t : Type := {
  _id : ObjectId;
  name : string
}.
End University.

Record Database : Type := {
  users : list User.t;
  items : list Item.t;
  universities : list University.t;
  (** the next [ObjectId] that [new Model(...)] hands out *)
  next_id : ObjectId
}.

Inductive Error : Type :=
| ValidationError (path : string)
| DuplicateKey (path : string)
| CastError
| UploadError
| TypeError.

Inductive Result (A : Type) : Type :=
| Ok (a : A)
| Throw (e : Error).

Arguments Ok {A} a.
Arguments Throw {A} e.

Definition bind {A B : Type} (m : Result A) (k : A -> Result B) : Result B :=
  match m with
  | Ok a => k a
  | Throw e => Throw e
  end.

Notation "x <- m ;; k" := (bind m (fun x => k))
  (at level 61, m at next level, right associativity).

(** The schema options, as Mongoose applies them. *)
Module Schema.

(** The setter of [trim: true]: [if (v) return v.trim(); return v]. *)
Definition set_trim (v : option string) : option string :=
  option_map Js.trim v.

(** [required: true] on a String path rejects [undefined] and the empty
    string. *)
Definition required (path : string) (v : option string) : Result string :=
  match v with
  | Some (String c s) => Ok (String c s)
  | _ => Throw (ValidationError path)
  end.

(** [enum: ['Lost', 'Found']]. *)
Definition status_enum (v : string) : Result string :=
  if String.eqb v "Lost" || String.eqb v "Found" then Ok v
  else Throw (ValidationError "status").

End Schema.

(** The fields of an item as a handler has set them, before validation. *)
Record ItemPaths : Type := {
  p_name : option string;
  p_description : option string;
  p_status : option string;
  p_category : option string;
  p_university : option string;
  p_imageUrl : option string;
  p_contactEmail : option string;
  p_contactPhone : option string
}.

(** Queries and writes on the collections. *)
Module Model.

(** [User.findOne({ email })]: the first user with that email.  Every
    stored user has an email, so an [undefined] one finds nobody. *)
Definition findUserByEmail (email : option string) (us : list User.t)
  : option User.t :=
  match email with
  | Some e => find (fun u => String.eqb u.(User.email) e) us
  | None => None
  end.

(** [Item.findById(id)]. *)
Definition findItemById (id : ObjectId) (l : list Item.t) : option Item.t :=
  find (fun i => N.eqb i.(Item._id) id) l.

(** [Item.findByIdAndDelete(id)]. *)
Fixpoint deleteItemById (id : ObjectId) (l : list Item.t) : list Item.t :=
  match l with
  | [] => []
  | i :: l' =>
      if N.eqb i.(Item._id) id then l' else i :: deleteItemById id l'
  end.

(** [doc.save()] on a loaded document writes it back under its [_id]. *)
Fixpoint replaceItem (doc : Item.t) (l : list Item.t) : list Item.t :=
  match l with
  | [] => []
  | i :: l' =>
      if N.eqb i.(Item._id) doc.(Item._id) then doc :: l'
      else i :: replaceItem doc l'
  end.

(** Validation of an item: every path is required, four of them are
    trimmed when they are set, [status] is one of the two enum values. *)
Definition validateItem (p : ItemPaths) (id owner : ObjectId)
  (created updated : Z) : Result Item.t :=
  name <- Schema.required "name" p.(p_name) ;;
  description <- Schema.required "description" p.(p_description) ;;
  status0 <- Schema.required "status" p.(p_status) ;;
  status <- Schema.status_enum status0 ;;
  category <- Schema.required "category" p.(p_category) ;;
  university <- Schema.required "university" p.(p_university) ;;
  imageUrl <- Schema.required "imageUrl" p.(p_imageUrl) ;;
  contactEmail <- Schema.required "contactEmail" p.(p_contactEmail) ;;
  contactPhone <- Schema.required "contactPhone" p.(p_contactPhone) ;;
  Ok {| Item._id := id; Item.name := name; Item.description := description;
        Item.status := status; Item.category := category;
        Item.university := university; Item.imageUrl := imageUrl;
        Item.contactEmail := contactEmail; Item.contactPhone := contactPhone;
        Item.reportedBy := owner; Item.createdAt := created;
        Item.updatedAt := updated |}.

(** [new User({name, email, password}).save()]. *)
Definition saveNewUser (name email password : option string) (db : Database)
  : Result (User.t * Database) :=
  let id := db.(next_id) in
  n <- Schema.required "name" name ;;
  e <- Schema.required "email" email ;;
  p <- Schema.required "password" password ;;
  if existsb (fun u => String.eqb u.(User.email) e) db.(users)
  then Throw (DuplicateKey "email")
  else
    let u := {| User._id := id; User.name := n; User.email := e;
                User.password := p |} in
    Ok (u, {| users := db.(users) ++ [u]; items := db.(items);
              universities := db.(universities); next_id := N.succ id |}).

(** [new University({ name }).save()]. *)
Definition saveNewUniversity (name : option string) (db : Database)
  : Result Database :=
  let id := db.(next_id) in
  n <- Schema.required "name" (Schema.set_trim name) ;;
  if existsb (fun u => String.eqb u.(University.name) n) db.(universities)
  then Throw (DuplicateKey "name")
  else
    Ok {| users := db.(users); items := db.(items);
          universities :=
            db.(universities) ++ [{| University._id := id; University.name := n |}];
          next_id := N.succ id |}.

(** [.sort({ createdAt: -1 })].  Items with the same [createdAt] stay in
    their stored order; the store itself promises no order among them. *)
Fixpoint insertNewestFirst (x : Item.t) (l : list Item.t) : list Item.t :=
  match l with
  | [] => [x]
  | y :: l' =>
      if (y.(Item.createdAt) <=? x.(Item.createdAt))%Z then x :: l
      else y :: insertNewestFirst x l'
  end.

Definition sortNewestFirst (l : list Item.t) : list Item.t :=
  fold_right insertNewestFirst [] l.

End Model.

(** ** Requests, sessions and responses *)

(** [req.session.user]. *)
Module SessionUser.
Record t : Type := {
  id : ObjectId;
  name : string;
  email : string
}.
End SessionUser.

Definition Session : Type := option SessionUser.t.

(** What [res.render] is given: the view and its locals. *)
Inductive View : Type :=
| V_items (items : list Item.t) (university : string)
    (currentStatus searchTerm : option string)
| V_login (error : option string).

Inductive Response : Type :=
| Redirect (url : string)
| Render (view : View)
| Send (status : N) (body : string)
(** [res.status(500).send(prefix + error.message)] *)
| SendError (status : N) (prefix : string) (e : Error).

Record Outcome : Type := {
  response : Response;
  db : Database;
  session : Session
}.

Definition respond (r : Response) (d : Database) (s : Session) : Outcome :=
  {| response := r; db := d; session := s |}.

(** [try { ... } catch (error) { ... }] around a handler body. *)
Definition try_catch (body : Result Outcome) (handler : Error -> Outcome)
  : Outcome :=
  match body with
  | Ok o => o
  | Throw e => handler e
  end.

(** The multipart body of the report and edit forms. *)
Record ItemForm : Type := {
  f_status : option string;
  f_itemName : option string;
  f_description : option string;
  f_category : option string;
  f_university : option string;
  f_contactEmail : option string;
  f_contactPhone : option string
}.

(** [req.query] of [GET /items]. *)
Record ItemsQuery : Type := {
  q_university : option string;
  q_status : option string;
  q_search : option string
}.

(** The outer world of a request: the clock behind [timestamps], and the
    image host, which answers an uploaded buffer with a [secure_url] or with
    an error. *)
Record Env : Type := {
  now : Z;
  upload_stream : string -> option string
}.

Definition with_items (d : Database) (l : list Item.t) : Database :=
  {| users := d.(users); items := l; universities := d.(universities);
     next_id := d.(next_id) |}.

(** [`${x}`] in a template literal. *)
Definition interpolate (x : option string) : string :=
  match x with
  | Some s => s
  | None => "undefined"
  end.

(** [Item.findById(req.params.id)] first casts the parameter. *)
Definition castObjectId (id : option ObjectId) : Result ObjectId :=
  match id with
  | Some i => Ok i
  | None => Throw CastError
  end.

(** ** The variant with the university registry (src/unnamed/part_000) *)

Module Registry.

(** [POST /add-university], behind [isAuthenticated]. *)
Definition add_university_post (d : Database) (s : Session)
  (newUniversity : option string) : option Outcome :=
  match s with
  | None => Some (respond (Redirect "/login") d s)
  | Some _ =>
      match Regex.compile ("^" ++ interpolate newUniversity ++ "$") with
      | Regex.Unsupported => None
      | Regex.SyntaxError => Some (respond (Redirect "/") d s)
      | Regex.Compiled re =>
          let exists_ :=
            find (fun u => Regex.test true re u.(University.name))
                 d.(universities) in
          Some (try_catch
            (d' <- match exists_ with
                   | None =>
                       if Js.truthy newUniversity
                       then Model.saveNewUniversity newUniversity d
                       else Ok d
                   | Some _ => Ok d
                   end ;;
             Ok (respond (Redirect "/") d' s))
            (fun _ => respond (Redirect "/") d s))
      end
  end.

(** The filter [{ university, status?, name: { $regex, $options: 'i' }? }]
    of [GET /items].  [university] is cast through the [trim] setter of
    its path; [status] has no setter; the pattern is taken as it is. *)
Definition matchesQuery (university : string) (status : option string)
  (name_re : option Regex.regex) (i : Item.t) : bool :=
  String.eqb i.(Item.university) (Js.trim university)
  && match status with
     | Some st => String.eqb i.(Item.status) st
     | None => true
     end
  && match name_re with
     | Some re => Regex.test true re i.(Item.name)
     | None => true
     end.

Definition statusFilter (status : option string) : option string :=
  if Js.truthy status then status else None.

Definition renderItems (d : Database) (s : Session) (university : string)
  (q : ItemsQuery) (name_re : option Regex.regex) : Outcome :=
  let found :=
    Model.sortNewestFirst
      (filter (matchesQuery university (statusFilter q.(q_status)) name_re)
              d.(items)) in
  respond (Render (V_items found university q.(q_status) q.(q_search))) d s.

(** The query of [GET /items] once [university] is known to be there. *)
Definition findItems (d : Database) (s : Session) (university : string)
  (q : ItemsQuery) : option Outcome :=
  match q.(q_search) with
  | Some (String c p) =>
      match Regex.compile (String c p) with
      | Regex.Unsupported => None
      | Regex.SyntaxError =>
          Some (respond (Send 500 "Error fetching items.") d s)
      | Regex.Compiled re => Some (renderItems d s university q (Some re))
      end
  | _ => Some (renderItems d s university q None)
  end.

(** [GET /items]. *)
Definition items_get (d : Database) (s : Session) (q : ItemsQuery)
  : option Outcome :=
  match s with
  | None => Some (respond (Redirect "/login?error=must_login") d s)
  | Some _ =>
      match q.(q_university) with
      | Some (String c u) => findItems d s (String c u) q
      | _ => Some (respond (Redirect "/") d s)
      end
  end.

(** The assignments [item.name = itemName; ...] of the update handler. *)
Definition assignForm (item : Item.t) (body : ItemForm) : ItemPaths :=
  {| p_name := Schema.set_trim body.(f_itemName);
     p_description := Schema.set_trim body.(f_description);
     p_status := body.(f_status);
     p_category := Schema.set_trim body.(f_category);
     p_university := Schema.set_trim body.(f_university);
     p_imageUrl := Some item.(Item.imageUrl);
     p_contactEmail := body.(f_contactEmail);
     p_contactPhone := body.(f_contactPhone) |}.

Definition setImageUrl (p : ItemPaths) (url : string) : ItemPaths :=
  {| p_name := p.(p_name); p_description := p.(p_description);
     p_status := p.(p_status); p_category := p.(p_category);
     p_university := p.(p_university); p_imageUrl := Some url;
     p_contactEmail := p.(p_contactEmail);
     p_contactPhone := p.(p_contactPhone) |}.

(** [await item.save()] on the loaded item: [createdAt] is kept, and
    [updatedAt] moves when a path has changed. *)
Definition saveItem (env : Env) (item : Item.t) (p : ItemPaths)
  : Result Item.t :=
  doc <- Model.validateItem p item.(Item._id) item.(Item.reportedBy)
           item.(Item.createdAt) env.(now) ;;
  if Item.same_paths doc item then Ok item else Ok doc.

(** [POST /items/:id/update], behind [isAuthenticated] and
    [upload.single('itemImage')]. *)
Definition item_update_post (env : Env) (d : Database) (s : Session)
  (id : option ObjectId) (body : ItemForm) (file : option string)
  : Outcome :=
  match s with
  | None => respond (Redirect "/login") d s
  | Some user =>
      try_catch
        (i <- castObjectId id ;;
         match Model.findItemById i d.(items) with
         | None => Ok (respond (Send 404 "Item not found") d s)
         | Some item =>
             if negb (N.eqb item.(Item.reportedBy) user.(SessionUser.id))
             then Ok (respond (Send 403 "Unauthorized") d s)
             else
               let p := assignForm item body in
               p' <- match file with
                     | None => Ok p
                     | Some buffer =>
                         match env.(upload_stream) buffer with
                         | Some secure_url => Ok (setImageUrl p secure_url)
                         | None => Throw UploadError
                         end
                     end ;;
               doc <- saveItem env item p' ;;
               Ok (respond (Redirect "/my-posts")
                     (with_items d (Model.replaceItem doc d.(items))) s)
         end)
        (fun _ => respond (Send 500 "Error updating item") d s)
  end.

(** [POST /items/:id/delete], behind [isAuthenticated]. *)
Definition item_delete_post (d : Database) (s : Session)
  (id : option ObjectId) : Outcome :=
  match s with
  | None => respond (Redirect "/login") d s
  | Some user =>
      try_catch
        (i <- castObjectId id ;;
         match Model.findItemById i d.(items) with
         | None => Ok (respond (Send 404 "Not found.") d s)
         | Some item =>
             if negb (N.eqb item.(Item.reportedBy) user.(SessionUser.id))
             then Ok (respond (Send 403 "Unauthorized.") d s)
             else
               Ok (respond (Redirect "/my-posts")
                     (with_items d (Model.deleteItemById i d.(items))) s)
         end)
        (fun _ => respond (Send 500 "Error deleting item.") d s)
  end.

Definition sessionOf (u : User.t) : SessionUser.t :=
  {| SessionUser.id := u.(User._id);
     SessionUser.name := u.(User.name);
     SessionUser.email := u.(User.email) |}.

(** [POST /signup]. *)
Definition signup_post (d : Database) (s : Session)
  (name email password : option string) : Outcome :=
  try_catch
    (if negb (Js.truthy email) || negb (Js.truthy name)
        || negb (Js.truthy password)
     then Ok (respond (Send 200 "Error: All fields are required.") d s)
     else
       match Model.findUserByEmail email d.(users) with
       | Some _ => Ok (respond (Redirect "/login?error=email_exists") d s)
       | None =>
           saved <- Model.saveNewUser name email password d ;;
           Ok (respond (Redirect "/") (snd saved)
                 (Some (sessionOf (fst saved))))
       end)
    (fun e => respond (SendError 500 "Error creating account: " e) d s).

Definition invalidLogin (d : Database) (s : Session) : Outcome :=
  respond (Render (V_login (Some "Invalid email or password."))) d s.

(** [POST /login]: the test is [user && user.password === password]. *)
Definition login_post (d : Database) (s : Session)
  (email password : option string) : Outcome :=
  try_catch
    (match Model.findUserByEmail email d.(users) with
     | Some user =>
         if Js.opt_eqb (Some user.(User.password)) password
         then Ok (respond (Redirect "/") d (Some (sessionOf user)))
         else Ok (invalidLogin d s)
     | None => Ok (invalidLogin d s)
     end)
    (fun _ => respond (Send 500 "Error logging in.") d s).

End Registry.

(** ** The variant with hashed passwords (src/unnamed/part_001)

    [bcrypt.hash(password, 10)] draws a salt; the salt is an input of the
    handler.  Both functions of bcryptjs reject an argument that is no
    string. *)

Module Hashed.
Section Bcrypt.

Variable bcrypt_hash : string -> N -> string -> string.
Variable bcrypt_compare : string -> string -> bool.

(** [GET /items]: the same query as in [Registry], with no session check. *)
Definition items_get (d : Database) (s : Session) (q : ItemsQuery)
  : option Outcome :=
  match q.(q_university) with
  | Some (String c u) => Registry.findItems d s (String c u) q
  | _ => Some (respond (Redirect "/") d s)
  end.

(** [POST /signup]. *)
Definition signup_post (salt : string) (d : Database) (s : Session)
  (name email password : option string) : Outcome :=
  try_catch
    (match Model.findUserByEmail email d.(users) with
     | Some _ =>
         Ok (respond (Send 400 "An account with this email already exists.")
               d s)
     | None =>
         hashedPassword <- match password with
                           | Some p => Ok (bcrypt_hash p 10 salt)
                           | None => Throw TypeError
                           end ;;
         saved <- Model.saveNewUser name email (Some hashedPassword) d ;;
         Ok (respond (Redirect "/login") (snd saved) s)
     end)
    (fun _ => respond (Send 500 "Error creating account.") d s).

(** [POST /login]: the test is
    [user && await bcrypt.compare(password, user.password)]. *)
Definition login_post (d : Database) (s : Session)
  (email password : option string) : Outcome :=
  try_catch
    (match Model.findUserByEmail email d.(users) with
     | Some user =>
         verified <- match password with
                     | Some p => Ok (bcrypt_compare p user.(User.password))
                     | None => Throw TypeError
                     end ;;
         if (verified : bool)
         then Ok (respond (Redirect "/") d (Some (Registry.sessionOf user)))
         else Ok (respond (Send 401 "Invalid email or password.") d s)
     | None => Ok (respond (Send 401 "Invalid email or password.") d s)
     end)
    (fun _ => respond (Send 500 "Error logging in.") d s).

End Bcrypt.
End Hashed.

(** ** The remaining routes of src/unnamed/part_000

    The pages these routes render are not among the views above.  A
    handler that only reads answers with a [Reply]: a page with its locals,
    or one of the responses above. *)

Inductive Page : Type :=
| P_index (universities : list University.t)
| P_item_detail (item : Item.t)
| P_report (universities : list University.t)
| P_my_posts (items : list Item.t)
| P_edit_item (item : Item.t) (universities : list University.t).

Inductive Reply : Type :=
| Shows (page : Page)
| Replies (r : Response).

(** [encodeURIComponent] on characters below 256: the unreserved
    characters stand for themselves, every other character is written as
    the bytes of its UTF-8 form, each as a percent sign and two upper-case
    hexadecimal digits. *)
Module Uri.

Definition is_unreserved (c : ascii) : bool :=
  let n := N_of_ascii c in
  ((65 <=? n) && (n <=? 90) || (97 <=? n) && (n <=? 122)
   || (48 <=? n) && (n <=? 57))%N
  || existsb (Ascii.eqb c) ["-"; "_"; "."; "!"; "~"; "*"; "'"; "("; ")"]%char.

Definition hex_digit (n : N) : ascii :=
  if (n <? 10)%N then ascii_of_N (48 + n) else ascii_of_N (55 + n).

Definition percent (byte : N) : string :=
  String "%" (String (hex_digit (byte / 16)) (String (hex_digit (byte mod 16))
    EmptyString)).

Definition encode_char (c : ascii) : string :=
  let n := N_of_ascii c in
  if is_unreserved c then String c EmptyString
  else if (n <? 128)%N then percent n
  else percent (192 + n / 64) ++ percent (128 + n mod 64).

Fixpoint encodeURIComponent (s : string) : string :=
  match s with
  | EmptyString => EmptyString
  | String c s' => encode_char c ++ encodeURIComponent s'
  end.

End Uri.

Module Routes.

(** [University.find().sort({ name: 1 })]: ascending in the binary order
    of the store, which compares character codes. *)
Fixpoint insertByName (x : University.t) (l : list University.t)
  : list University.t :=
  match l with
  | [] => [x]
  | y :: l' =>
      if String.leb x.(University.name) y.(University.name) then x :: l
      else y :: insertByName x l'
  end.

Definition sortByName (l : list University.t) : list University.t :=
  fold_right insertByName [] l.

(** [GET /]. *)
Definition home_get (d : Database) : Reply :=
  Shows (P_index (sortByName d.(universities))).

(** [GET /item/:id]. *)
Definition item_get (d : Database) (id : option ObjectId) : Reply :=
  match castObjectId id with
  | Throw _ => Replies (Send 500 "Error.")
  | Ok i =>
      match Model.findItemById i d.(items) with
      | None => Replies (Send 404 "Item not found")
      | Some item => Shows (P_item_detail item)
      end
  end.

(** [GET /report], behind [isAuthenticated]. *)
Definition report_get (d : Database) (s : Session) : Reply :=
  match s with
  | None => Replies (Redirect "/login")
  | Some _ => Shows (P_report (sortByName d.(universities)))
  end.

(** The paths of [new Item({ name: itemName, ..., imageUrl, ... })]. *)
Definition newItemPaths (body : ItemForm) (imageUrl : string) : ItemPaths :=
  {| p_name := Schema.set_trim body.(f_itemName);
     p_description := Schema.set_trim body.(f_description);
     p_status := body.(f_status);
     p_category := Schema.set_trim body.(f_category);
     p_university := Schema.set_trim body.(f_university);
     p_imageUrl := Some imageUrl;
     p_contactEmail := body.(f_contactEmail);
     p_contactPhone := body.(f_contactPhone) |}.

(** [uploadToCloudinary()]: [req.file.buffer] throws when no file came
    with the request, and the host may answer with an error. *)
Definition uploadToCloudinary (env : Env) (file : option string)
  : Result string :=
  match file with
  | None => Throw TypeError
  | Some buffer =>
      match env.(upload_stream) buffer with
      | Some secure_url => Ok secure_url
      | None => Throw UploadError
      end
  end.

Definition with_new_item (d : Database) (doc : Item.t) : Database :=
  {| users := d.(users); items := d.(items) ++ [doc];
     universities := d.(universities); next_id := N.succ d.(next_id) |}.

(** [POST /report], behind [isAuthenticated] and
    [upload.single('itemImage')]. *)
Definition report_post (env : Env) (d : Database) (s : Session)
  (body : ItemForm) (file : option string) : Outcome :=
  match s with
  | None => respond (Redirect "/login") d s
  | Some user =>
      try_catch
        (imageUrl <- uploadToCloudinary env file ;;
         doc <- Model.validateItem (newItemPaths body imageUrl) d.(next_id)
                  user.(SessionUser.id) env.(now) env.(now) ;;
         Ok (respond
               (Redirect ("/items?university="
                          ++ Uri.encodeURIComponent
                               (interpolate body.(f_university))))
               (with_new_item d doc) s))
        (fun _ => respond (Send 500 "Error submitting report.") d s)
  end.

(** [Item.find({ reportedBy: req.session.user.id })]. *)
Definition ownedBy (owner : ObjectId) (i : Item.t) : bool :=
  N.eqb i.(Item.reportedBy) owner.

(** [GET /my-posts], behind [isAuthenticated]. *)
Definition my_posts_get (d : Database) (s : Session) : Reply :=
  match s with
  | None => Replies (Redirect "/login")
  | Some user =>
      Shows (P_my_posts
               (Model.sortNewestFirst
                  (filter (ownedBy user.(SessionUser.id)) d.(items))))
  end.

(** [GET /items/:id/edit], behind [isAuthenticated]. *)
Definition edit_get (d : Database) (s : Session) (id : option ObjectId)
  : Reply :=
  match s with
  | None => Replies (Redirect "/login")
  | Some user =>
      match castObjectId id with
      | Throw _ => Replies (Send 500 "Error loading edit form")
      | Ok i =>
          match Model.findItemById i d.(items) with
          | None => Replies (Send 404 "Item not found")
          | Some item =>
              if negb (N.eqb item.(Item.reportedBy) user.(SessionUser.id))
              then Replies (Send 403 "Unauthorized")
              else Shows (P_edit_item item (sortByName d.(universities)))
          end
      end
  end.

End Routes.

(** ** The delete route of src/unnamed/part_001 *)

Module HashedRoutes.

(** [POST /items/:id/delete], behind [isAuthenticated]. *)
Definition item_delete_post (d : Database) (s : Session)
  (id : option ObjectId) : Outcome :=
  match s with
  | None => respond (Redirect "/login") d s
  | Some user =>
      try_catch
        (i <- castObjectId id ;;
         match Model.findItemById i d.(items) with
         | None => Ok (respond (Send 404 "Item not found.") d s)
         | Some item =>
             if negb (N.eqb item.(Item.reportedBy) user.(SessionUser.id))
             then Ok (respond
                        (Send 403 "You are not authorized to delete this post.")
                        d s)
             else
               Ok (respond (Redirect "/my-posts")
                     (with_items d (Model.deleteItemById i d.(items))) s)
         end)
        (fun _ => respond (Send 500 "Error deleting item.") d s)
  end.

End HashedRoutes.

(** ** What the schemas promise of stored documents *)

Module Conforms.

Definition present (v : string) : Prop := v <> "".

Definition trimmed (v : string) : Prop := Js.trim v = v.

(** An item as [ItemSchema] validates it. *)
Definition item (i : Item.t) : Prop :=
  present i.(Item.name) /\ trimmed i.(Item.name)
  /\ present i.(Item.description) /\ trimmed i.(Item.description)
  /\ (i.(Item.status) = "Lost" \/ i.(Item.status) = "Found")
  /\ present i.(Item.category) /\ trimmed i.(Item.category)
  /\ present i.(Item.university) /\ trimmed i.(Item.university)
  /\ present i.(Item.imageUrl)
  /\ present i.(Item.contactEmail)
  /\ present i.(Item.contactPhone).

(** A registry as [UniversitySchema] and its unique index keep it. *)
Definition registry (l : list University.t) : Prop :=
  Forall (fun u => present u.(University.name)
                   /\ trimmed u.(University.name)) l
  /\ NoDup (map University.name l).

(** The stored items that belong to someone other than [owner], in their
    stored order. *)
Definition of_others (owner : ObjectId) (l : list Item.t) : list Item.t :=
  filter (fun j => negb (Routes.ownedBy owner j)) l.

(** Ids as [new Item(...)] hands them out: no two stored items share one,
    and none has been handed out that is still to come. *)
Definition ids (d : Database) : Prop :=
  NoDup (map Item._id d.(items))
  /\ Forall (fun j : Item.t => (j.(Item._id) < d.(next_id))%N) d.(items).

Definition SortedByName (l : list University.t) : Prop :=
  StronglySorted
    (fun a b : University.t =>
       String.leb a.(University.name) b.(University.name) = true) l.

End Conforms.

(** ** The wording of the specification

    The specification speaks of names that are equal "up to letter case",
    of a name that "contains the search string case-insensitively" and of
    a listing "ordered newest-first".  These definitions follow those
    words; the handlers above use the regular expression engine and the
    sort of the store instead. *)

Module Spec.

Definition EqualIgnoreCase (a b : string) : Prop :=
  Js.toLowerCase a = Js.toLowerCase b.

Definition ContainsIgnoreCase (name sub : string) : Prop :=
  exists before after : string,
    Js.toLowerCase name = before ++ Js.toLowerCase sub ++ after.

Definition NewestFirst (l : list Item.t) : Prop :=
  StronglySorted
    (fun a b : Item.t => (b.(Item.createdAt) <= a.(Item.createdAt))%Z) l.

(** The items a listing for university [X] is to return: those of that
    university, of the status asked for when a non-empty one is given, and
    whose name the search expression, when there is one, matches without
    regard to case.  [X] is compared the way the filter value reaches the
    store: through the [trim] setter of the [university] path. *)
Definition Wanted (X : string) (status : option string)
  (name_re : option Regex.regex) (i : Item.t) : Prop :=
  i.(Item.university) = Js.trim X
  /\ (forall st, status = Some st -> st <> "" -> i.(Item.status) = st)
  /\ (forall re, name_re = Some re ->
        Regex.test true re i.(Item.name) = true).

(** [found] holds exactly the wanted items of [stored], each as often as
    it is stored, newest first. *)
Definition Listing (stored : list Item.t) (X : string)
  (status : option string) (name_re : option Regex.regex)
  (found : list Item.t) : Prop :=
  (exists keep : Item.t -> bool,
     (forall i, keep i = true <-> Wanted X status name_re i)
     /\ Permutation found (filter keep stored))
  /\ NewestFirst found.

End Spec.

(** ** Patterns without syntax characters

    What the reader and the matcher do on a pattern in which no character
    has a meaning of its own, as functions on strings. *)

Module Plain.

Fixpoint is_plain (p : string) : bool :=
  match p with
  | EmptyString => true
  | String c p' => negb (Regex.is_syntax_char c) && is_plain p'
  end.

(** The expression such a pattern stands for: its characters in a row,
    and then [tail]. *)
Fixpoint literal_then (p : string) (tail : Regex.regex) : Regex.regex :=
  match p with
  | EmptyString => tail
  | String c p' => Regex.Seq (Regex.Char c) (literal_then p' tail)
  end.

Definition literal (p : string) : Regex.regex :=
  literal_then p Regex.Empty.

(** The same characters as the reader stacks them: one atom each. *)
Definition atoms (p : string) : list (Regex.regex * bool) :=
  map (fun c => (Regex.Char c, true)) (list_ascii_of_string p).

Fixpoint startsWithIgnoreCase (sub s : string) : bool :=
  match sub, s with
  | EmptyString, _ => true
  | String a sub', String c s' =>
      Regex.char_eq true a c && startsWithIgnoreCase sub' s'
  | String _ _, EmptyString => false
  end.

Fixpoint containsIgnoreCase (name sub : string) : bool :=
  startsWithIgnoreCase sub name
  || match name with
     | EmptyString => false
     | String _ name' => containsIgnoreCase name' sub
     end.

(** What the anchored expression of the existence check decides: the
    subject is the name, letter case aside, possibly followed by one line
    feed. *)
Fixpoint matchesWholeIgnoreCase (p s : string) : bool :=
  match p with
  | EmptyString => Regex.at_eol s
  | String a p' =>
      match s with
      | EmptyString => false
      | String c s' => Regex.char_eq true a c && matchesWholeIgnoreCase p' s'
      end
  end.

End Plain.

(** ** Sample data *)

Module Sample.

Definition ann : User.t :=
  {| User._id := 1%N; User.name := "Ann"; User.email := "ann@x.edu";
     User.password := "pw1" |}.

Definition bob : User.t :=
  {| User._id := 2%N; User.name := "Bob"; User.email := "bob@x.edu";
     User.password := "hunter2" |}.

Definition bottle : Item.t :=
  {| Item._id := 10%N; Item.name := "Blue Bottle";
     Item.description := "Left in the main library";
     Item.status := "Lost"; Item.category := "Accessories";
     Item.university := "MIT";
     Item.imageUrl := "https://img.example/bottle.png";
     Item.contactEmail := "ann@x.edu"; Item.contactPhone := "555-0100";
     Item.reportedBy := 1%N; Item.createdAt := 1000; Item.updatedAt := 1000 |}.

Definition keys : Item.t :=
  {| Item._id := 11%N; Item.name := "Motorcycle keys";
     Item.description := "Found near the food court";
     Item.status := "Found"; Item.category := "Keys";
     Item.university := "MIT";
     Item.imageUrl := "https://img.example/keys.png";
     Item.contactEmail := "bob@x.edu"; Item.contactPhone := "555-0101";
     Item.reportedBy := 2%N; Item.createdAt := 2000; Item.updatedAt := 2000 |}.

Definition empty_db : Database :=
  {| users := []; items := []; universities := []; next_id := 1%N |}.

Definition campus : Database :=
  {| users := [ann; bob]; items := [bottle; keys];
     universities := [{| University._id := 5%N; University.name := "MIT" |}];
     next_id := 20%N |}.

Definition as_ann : Session := Some (Registry.sessionOf ann).
Definition as_bob : Session := Some (Registry.sessionOf bob).

Definition no_upload : Env :=
  {| now := 5000; upload_stream := fun _ => None |}.

Definition any_query (university status search : option string)
  : ItemsQuery :=
  {| q_university := university; q_status := status; q_search := search |}.

(** A stand-in for bcrypt in examples: the digest names the cost and the
    salt and ends with the password reversed. *)
Definition toy_hash (password : string) (rounds : N) (salt : string)
  : string :=
  "$2a$10$" ++ salt ++ "$"
  ++ string_of_list_ascii (rev (list_ascii_of_string password)).

Definition toy_compare (password digest : string) : bool :=
  String.eqb digest (toy_hash password 10 "salt").

Definition edit_form (name : string) : ItemForm :=
  {| f_status := Some "Lost"; f_itemName := Some name;
     f_description := Some "Left in the main library";
     f_category := Some "Accessories"; f_university := Some "MIT";
     f_contactEmail := Some "ann@x.edu";
     f_contactPhone := Some "555-0100" |}.

End Sample.

(** ** Response status and safe characters *)

(** The status Express sends with a response. *)
Definition status_code (r : Response) : N :=
  match r with
  | Redirect _ => 302
  | Render _ => 200
  | Send status _ => status
  | SendError status _ _ => status
  end.

(** A value that can stand in a query string without ending it or
    starting another parameter: unreserved characters and percent signs. *)
Fixpoint is_query_safe (s : string) : bool :=
  match s with
  | EmptyString => true
  | String c s' =>
      (Uri.is_unreserved c || Ascii.eqb c "%") && is_query_safe s'
  end.

(** ** More sample data *)

Module Fixture.

(** An image host that stores every buffer under its own text. *)
Definition host : Env :=
  {| now := 6000;
     upload_stream := fun buffer => Some ("https://img.example/" ++ buffer) |}.

Definition umbrella_form : ItemForm :=
  {| f_status := Some "Found"; f_itemName := Some " Green Umbrella ";
     f_description := Some "Left at the east gate";
     f_category := Some "Accessories"; f_university := Some "MIT";
     f_contactEmail := Some "bob@x.edu";
     f_contactPhone := Some "555-0101" |}.

Definition two_campuses : Database :=
  {| users := [Sample.ann; Sample.bob];
     items := [Sample.bottle; Sample.keys];
     universities :=
       [{| University._id := 5%N; University.name := "MIT" |};
        {| University._id := 6%N; University.name := "Caltech" |}];
     next_id := 20%N |}.

(** Names with an accented letter: code 201 is the capital E with acute
    accent, code 233 the small one. *)
Definition E_acute : ascii := ascii_of_N 201.
Definition e_acute : ascii := ascii_of_N 233.

Definition cafe : string := "caf" ++ String e_acute "".
Definition CAFE_card : string := "CAF" ++ String E_acute " card".
Definition Ecole : string := String E_acute "cole".
Definition ecole : string := String e_acute "cole".

Definition card : Item.t :=
  {| Item._id := 12%N; Item.name := CAFE_card;
     Item.description := "Found at the counter";
     Item.status := "Found"; Item.category := "Cards";
     Item.university := "MIT";
     Item.imageUrl := "https://img.example/card.png";
     Item.contactEmail := "bob@x.edu"; Item.contactPhone := "555-0101";
     Item.reportedBy := 2%N; Item.createdAt := 3000; Item.updatedAt := 3000 |}.

Definition french_campus : Database :=
  {| users := [Sample.ann; Sample.bob];
     items := [Sample.bottle; card];
     universities := [{| University._id := 7%N; University.name := Ecole |}];
     next_id := 20%N |}.

End Fixture.

(** * Properties *)

(** ** Strings, lookups and validators *)

Module JsFacts.

Lemma append_empty_r (s : string) : s ++ "" = s.
Proof. induction s as [|c s IH]; simpl; [reflexivity | now rewrite IH]. Qed.

Lemma append_assoc (a b c : string) : (a ++ b) ++ c = a ++ (b ++ c).
Proof. induction a as [|x a IH]; simpl; [reflexivity | now rewrite IH]. Qed.

Lemma append_eq_empty (a b : string) : a ++ b = "" -> a = "" /\ b = "".
Proof. destruct a; simpl; [now split | discriminate]. Qed.

(** Letter case below code 256: the accented capitals have their small
    letters as images; the multiplication sign, the sharp s and the small
    letters are their own. *)
Lemma lower_ascii_accented :
  Js.lower_ascii Fixture.E_acute = Fixture.e_acute
  /\ Js.lower_ascii (ascii_of_N 192) = ascii_of_N 224
  /\ Js.lower_ascii (ascii_of_N 222) = ascii_of_N 254
  /\ Js.lower_ascii (ascii_of_N 215) = ascii_of_N 215
  /\ Js.lower_ascii (ascii_of_N 223) = ascii_of_N 223
  /\ Js.lower_ascii (ascii_of_N 247) = ascii_of_N 247
  /\ Js.toLowerCase Fixture.CAFE_card = Fixture.cafe ++ " card".
Proof. repeat split. Qed.

Lemma lower_ascii_idempotent (c : ascii) :
  Js.lower_ascii (Js.lower_ascii c) = Js.lower_ascii c.
Proof.
  destruct c as [[] [] [] [] [] [] [] []]; reflexivity.
Qed.

(** What [trimEnd] returns does not end in white space. *)
Lemma trimEnd_last (t x : string) (c : ascii) :
  Js.trimEnd t = x ++ String c "" -> Js.is_space c = false.
Proof.
  revert x. induction t as [|a t IH]; intros x H; cbn [Js.trimEnd] in H.
  - symmetry in H. apply append_eq_empty in H. destruct H; discriminate.
  - destruct (Js.trimEnd t) as [|b tt] eqn:E.
    + destruct (Js.is_space a) eqn:Sa.
      * symmetry in H. apply append_eq_empty in H. destruct H; discriminate.
      * destruct x as [|x0 x]; cbn [append] in H.
        -- injection H as <-. exact Sa.
        -- injection H as _ H. symmetry in H. apply append_eq_empty in H.
           destruct H; discriminate.
    + destruct x as [|x0 x]; cbn [append] in H; [discriminate|].
      injection H as _ H. now apply (IH x).
Qed.

Lemma trimmed_last (x : string) (c : ascii) :
  Js.trim (x ++ String c "") = x ++ String c "" -> Js.is_space c = false.
Proof. unfold Js.trim. apply trimEnd_last. Qed.

Lemma toLowerCase_eq_empty (s : string) : Js.toLowerCase s = "" -> s = "".
Proof. destruct s; simpl; [reflexivity | discriminate]. Qed.

Lemma truthy_Some (s : string) : Js.truthy (Some s) = true <-> s <> "".
Proof.
  destruct s; simpl; split; intro H; congruence.
Qed.

Lemma truthy_false (x : option string) :
  Js.truthy x = false <-> x = None \/ x = Some "".
Proof.
  destruct x as [[|c s]|]; simpl; split; intro H; auto;
    try discriminate; destruct H; discriminate.
Qed.

Lemma opt_eqb_eq (x y : option string) : Js.opt_eqb x y = true <-> x = y.
Proof.
  destruct x as [a|], y as [b|]; simpl; split; intro H;
    try discriminate; try reflexivity.
  - apply String.eqb_eq in H. now subst.
  - injection H as ->. apply String.eqb_refl.
Qed.

Lemma opt_eqb_neq (x y : option string) : Js.opt_eqb x y = false <-> x <> y.
Proof.
  split; intro H.
  - intro E. apply opt_eqb_eq in E. congruence.
  - destruct (Js.opt_eqb x y) eqn:E; [|reflexivity].
    apply opt_eqb_eq in E. contradiction.
Qed.

End JsFacts.

Module ModelFacts.

Lemma required_nonempty (path s : string) :
  s <> "" -> Schema.required path (Some s) = Ok s.
Proof. destruct s; simpl; congruence. Qed.

Lemma required_Ok (path : string) (v : option string) (s : string) :
  Schema.required path v = Ok s -> v = Some s /\ s <> "".
Proof.
  destruct v as [[|c v]|]; simpl; intro H; inversion H; subst.
  split; [reflexivity | discriminate].
Qed.

Lemma findUserByEmail_Some (email : option string) (us : list User.t)
  (u : User.t) :
  Model.findUserByEmail email us = Some u ->
  In u us /\ email = Some u.(User.email).
Proof.
  destruct email as [e|]; simpl; [|discriminate].
  intro H. apply find_some in H. destruct H as [Hin He].
  apply String.eqb_eq in He. now subst.
Qed.

Lemma findUserByEmail_None (email : option string) (us : list User.t) :
  Model.findUserByEmail email us = None ->
  forall u, In u us -> email <> Some u.(User.email).
Proof.
  destruct email as [e|]; simpl; [|discriminate].
  intros H u Hin E. injection E as ->.
  pose proof (find_none _ _ H u Hin) as F. simpl in F.
  rewrite String.eqb_refl in F. discriminate.
Qed.

Lemma findUserByEmail_In (us : list User.t) (u : User.t) :
  In u us ->
  exists u', Model.findUserByEmail (Some u.(User.email)) us = Some u'.
Proof.
  intro Hin.
  destruct (Model.findUserByEmail (Some u.(User.email)) us) as [u'|] eqn:E.
  - now exists u'.
  - exfalso. now apply (findUserByEmail_None _ _ E u Hin).
Qed.


(** With the unique index on [email] in force, the record the lookup
    returns is the record with that email. *)
Lemma findUserByEmail_unique (us : list User.t) (u : User.t) :
  NoDup (map User.email us) -> In u us ->
  Model.findUserByEmail (Some u.(User.email)) us = Some u.
Proof.
  simpl. induction us as [|v us IH]; simpl; intros ND Hin; [contradiction|].
  inversion ND as [|? ? Hnotin ND']; subst.
  destruct Hin as [->|Hin].
  - now rewrite String.eqb_refl.
  - destruct (String.eqb v.(User.email) u.(User.email)) eqn:E.
    + apply String.eqb_eq in E. exfalso. apply Hnotin. rewrite E.
      now apply in_map.
    + now apply IH.
Qed.



End ModelFacts.

(** ** Accounts: signup and login *)

Module Accounts.

Import JsFacts ModelFacts.

(** C10.  A signup request in which the name, the email or the password
    is missing or empty is answered with the validation message by the
    handler of the registry variant; the database and the session come
    back as they were, and the answer is the same whatever the user
    collection holds. *)
Theorem signup_rejects_missing_fields (d : Database) (s : Session)
  (name email password : option string) :
  Js.truthy name = false \/ Js.truthy email = false
    \/ Js.truthy password = false ->
  Registry.signup_post d s name email password
    = respond (Send 200 "Error: All fields are required.") d s
  /\ forall d' : Database,
       (Registry.signup_post d' s name email password).(response)
       = (Registry.signup_post d s name email password).(response).
Proof.
  intro H.
  assert (G : forall d0, Registry.signup_post d0 s name email password
            = respond (Send 200 "Error: All fields are required.") d0 s).
  { intro d0. unfold Registry.signup_post.
    destruct H as [H|[H|H]]; rewrite H; simpl;
      rewrite ?orb_true_r; reflexivity. }
  split; [apply G|]. intro d'. now rewrite !G.
Qed.

Lemma signup_rejects_missing_fields_witness :
  Js.truthy (Some "") = false
  /\ Registry.signup_post Sample.campus None (Some "Cy") (Some "cy@x.edu")
       (Some "")
     = respond (Send 200 "Error: All fields are required.") Sample.campus
         None.
Proof.
  split; [reflexivity|].
  apply (signup_rejects_missing_fields Sample.campus None (Some "Cy")
           (Some "cy@x.edu") (Some "")).
  right; right; reflexivity.
Defined.




(** C3, counterexample.  Ann has an account; a signup attempt with her
    email and an empty name is answered with the validation message, not
    with the duplicate-email redirect. *)
Lemma duplicate_signup_counterexample :
  In Sample.ann Sample.campus.(users)
  /\ Registry.signup_post Sample.campus None (Some "")
       (Some Sample.ann.(User.email)) (Some "pw9")
     = respond (Send 200 "Error: All fields are required.") Sample.campus
         None.
Proof. split; [left; reflexivity | reflexivity]. Qed.

(** C3, amended.  For every existing user record and every signup attempt
    with that record's email: when the name, the email and the password of
    the attempt are all non-empty the registry variant answers with the
    duplicate-email redirect, and when one of them is missing or empty it
    answers with the validation message; the hashed variant answers every
    such attempt with its duplicate-email response.  In each case the
    whole database, and with it the existing record, and the session are
    unchanged. *)
Theorem duplicate_email_signup_changes_nothing (d : Database) (s : Session)
  (u : User.t) (name password : option string)
  (bcrypt_hash : string -> N -> string -> string) (salt : string) :
  In u d.(users) ->
  let email := Some u.(User.email) in
  Registry.signup_post d s name email password
    = respond
        (if Js.truthy email && Js.truthy name && Js.truthy password
         then Redirect "/login?error=email_exists"
         else Send 200 "Error: All fields are required.")
        d s
  /\ Hashed.signup_post bcrypt_hash salt d s name email password
     = respond (Send 400 "An account with this email already exists.") d s.
Proof.
  intros Hin email.
  destruct (findUserByEmail_In _ _ Hin) as [u' Hu']. fold email in Hu'.
  split.
  - unfold Registry.signup_post.
    destruct (Js.truthy email), (Js.truthy name), (Js.truthy password);
      cbn [negb orb andb]; try reflexivity.
    now rewrite Hu'.
  - unfold Hashed.signup_post. now rewrite Hu'.
Qed.

Lemma duplicate_email_signup_changes_nothing_witness :
  In Sample.ann Sample.campus.(users)
  /\ Registry.signup_post Sample.campus None (Some "Annie")
       (Some "ann@x.edu") (Some "pw9")
     = respond (Redirect "/login?error=email_exists") Sample.campus None.
Proof.
  split; [left; reflexivity|].
  exact (proj1 (duplicate_email_signup_changes_nothing Sample.campus None
                  Sample.ann (Some "Annie") (Some "pw9") Sample.toy_hash
                  "salt" (or_introl eq_refl))).
Defined.

(** C6, counterexample.  In the hashed variant Ann has an account and a
    login request names her email but carries no password field.
    [bcrypt.compare] throws on the missing argument, the [catch] block
    answers 500 "Error logging in.": the login does not succeed, and the
    answer is not the "Invalid email or password." one. *)
Lemma login_without_password_counterexample :
  Model.findUserByEmail (Some "ann@x.edu") Sample.campus.(users)
    = Some Sample.ann
  /\ Hashed.login_post Sample.toy_compare Sample.campus None
       (Some "ann@x.edu") None
     = respond (Send 500 "Error logging in.") Sample.campus None
  /\ Hashed.login_post Sample.toy_compare Sample.campus None
       (Some "ann@x.edu") None
     <> respond (Send 401 "Invalid email or password.") Sample.campus None.
Proof.
  split; [reflexivity|]. split; [reflexivity | discriminate].
Qed.

(** C6, amended.  Login succeeds, redirecting to "/" with the session set
    to the id, name and email of the user found, when the lookup by the
    exact email finds a user record and the stored credential verifies
    against the supplied password: by [===] in the registry variant, by
    [bcrypt.compare] in the hashed one.  In every other case no session is
    established and the session is left as it was: the registry variant
    renders the login page with the error "Invalid email or password.",
    the hashed variant answers 401 "Invalid email or password.", except
    that for a registered email and a request without password field it
    answers 500 "Error logging in.".  The lookup finds a user exactly when
    a record with that email is stored.  The database is never changed. *)
Theorem login_succeeds_exactly_on_verified_credentials (d : Database)
  (s : Session) (email password : option string)
  (bcrypt_compare : string -> string -> bool) :
  let found := Model.findUserByEmail email d.(users) in
  let identity (u : User.t) : SessionUser.t :=
    {| SessionUser.id := u.(User._id); SessionUser.name := u.(User.name);
       SessionUser.email := u.(User.email) |} in
  (forall u, found = Some u -> In u d.(users) /\ email = Some u.(User.email))
  /\ (found = None -> forall u, In u d.(users) -> email <> Some u.(User.email))
  /\ (forall u, found = Some u -> password = Some u.(User.password) ->
        Registry.login_post d s email password
        = {| response := Redirect "/"; db := d;
             session := Some (identity u) |})
  /\ ((forall u, found = Some u -> password <> Some u.(User.password)) ->
        Registry.login_post d s email password
        = {| response := Render (V_login (Some "Invalid email or password."));
             db := d; session := s |})
  /\ (forall u p, found = Some u -> password = Some p ->
        bcrypt_compare p u.(User.password) = true ->
        Hashed.login_post bcrypt_compare d s email password
        = {| response := Redirect "/"; db := d;
             session := Some (identity u) |})
  /\ (forall u p, found = Some u -> password = Some p ->
        bcrypt_compare p u.(User.password) = false ->
        Hashed.login_post bcrypt_compare d s email password
        = {| response := Send 401 "Invalid email or password."; db := d;
             session := s |})
  /\ (found = None ->
        Hashed.login_post bcrypt_compare d s email password
        = {| response := Send 401 "Invalid email or password."; db := d;
             session := s |})
  /\ (forall u, found = Some u -> password = None ->
        Hashed.login_post bcrypt_compare d s email password
        = {| response := Send 500 "Error logging in."; db := d;
             session := s |}).
Proof.
  intros found identity.
  repeat match goal with |- _ /\ _ => split end.
  - intros u Hf. now apply (findUserByEmail_Some email d.(users) u).
  - now apply findUserByEmail_None.
  - intros u Hf Hp. unfold Registry.login_post. fold found. rewrite Hf.
    subst password. simpl. now rewrite String.eqb_refl.
  - intros Hno. unfold Registry.login_post. fold found.
    destruct found as [u|] eqn:Hf; [|reflexivity].
    specialize (Hno u eq_refl).
    assert (E : Js.opt_eqb (Some u.(User.password)) password = false).
    { apply opt_eqb_neq. congruence. }
    now rewrite E.
  - intros u p Hf Hp Hv. unfold Hashed.login_post. fold found.
    rewrite Hf. subst password. cbn [bind]. now rewrite Hv.
  - intros u p Hf Hp Hv. unfold Hashed.login_post. fold found.
    rewrite Hf. subst password. cbn [bind]. now rewrite Hv.
  - intros Hf. unfold Hashed.login_post. fold found. now rewrite Hf.
  - intros u Hf Hp. unfold Hashed.login_post. fold found.
    rewrite Hf. subst password. reflexivity.
Qed.

Lemma login_succeeds_exactly_on_verified_credentials_witness :
  Model.findUserByEmail (Some "ann@x.edu") Sample.campus.(users)
    = Some Sample.ann
  /\ Registry.login_post Sample.campus None (Some "ann@x.edu") (Some "pw1")
     = {| response := Redirect "/"; db := Sample.campus;
          session := Some {| SessionUser.id := 1%N; SessionUser.name := "Ann";
                             SessionUser.email := "ann@x.edu" |} |}
  /\ Registry.login_post Sample.campus None (Some "ann@x.edu") (Some "pw2")
     = {| response := Render (V_login (Some "Invalid email or password."));
          db := Sample.campus; session := None |}
  /\ Hashed.login_post Sample.toy_compare Sample.campus None
       (Some "ann@x.edu") (Some "pw1")
     = {| response := Send 401 "Invalid email or password.";
          db := Sample.campus; session := None |}.
Proof.
  split; [reflexivity|]. split; [|split].
  - pose proof (login_succeeds_exactly_on_verified_credentials
                  Sample.campus None (Some "ann@x.edu") (Some "pw1")
                  Sample.toy_compare) as H.
    cbv zeta in H. destruct H as (_ & _ & H & _).
    exact (H Sample.ann eq_refl eq_refl).
  - pose proof (login_succeeds_exactly_on_verified_credentials
                  Sample.campus None (Some "ann@x.edu") (Some "pw2")
                  Sample.toy_compare) as H.
    cbv zeta in H. destruct H as (_ & _ & _ & H & _).
    apply H. intros u Hu. injection Hu as <-. discriminate.
  - pose proof (login_succeeds_exactly_on_verified_credentials
                  Sample.campus None (Some "ann@x.edu") (Some "pw1")
                  Sample.toy_compare) as H.
    cbv zeta in H. destruct H as (_ & _ & _ & _ & _ & H & _).
    exact (H Sample.ann "pw1" eq_refl eq_refl eq_refl).
Defined.

(** C9, counterexample.  Two failed logins in the hashed variant, neither
    with a password field: the one with an email that matches no record is
    answered 401 "Invalid email or password.", the one with Bob's
    registered email is answered 500 "Error logging in.".  The two
    responses differ, so they tell whether the email has an account. *)
Lemma failed_logins_differ_counterexample :
  Model.findUserByEmail (Some "zed@x.edu") Sample.campus.(users) = None
  /\ Model.findUserByEmail (Some "bob@x.edu") Sample.campus.(users)
     = Some Sample.bob
  /\ Hashed.login_post Sample.toy_compare Sample.campus None
       (Some "zed@x.edu") None
     = {| response := Send 401 "Invalid email or password.";
          db := Sample.campus; session := None |}
  /\ Hashed.login_post Sample.toy_compare Sample.campus None
       (Some "bob@x.edu") None
     = {| response := Send 500 "Error logging in.";
          db := Sample.campus; session := None |}
  /\ (Hashed.login_post Sample.toy_compare Sample.campus None
        (Some "zed@x.edu") None).(response)
     <> (Hashed.login_post Sample.toy_compare Sample.campus None
           (Some "bob@x.edu") None).(response).
Proof.
  repeat match goal with |- _ /\ _ => split end; try reflexivity.
  discriminate.
Qed.

(** C9, amended.  An attempt with an email that matches no user record,
    whatever else it carries, and an attempt with a registered email and a
    password that does not verify.  In the registry variant both get the
    login page with the error "Invalid email or password.", for every
    password field of either attempt, present or not.  In the hashed
    variant the first gets 401 "Invalid email or password." and so does
    the second when it carries a password string that [bcrypt.compare]
    rejects; when the second carries no password field it gets 500
    "Error logging in." instead, a response that differs from the
    first. *)
Theorem failed_login_responses (d : Database)
  (s1 s2 : Session) (unknown registered : option string)
  (p1 p2 : option string) (u : User.t)
  (bcrypt_compare : string -> string -> bool) :
  Model.findUserByEmail unknown d.(users) = None ->
  Model.findUserByEmail registered d.(users) = Some u ->
  p2 <> Some u.(User.password) ->
  (Registry.login_post d s1 unknown p1).(response)
    = Render (V_login (Some "Invalid email or password."))
  /\ (Registry.login_post d s2 registered p2).(response)
     = Render (V_login (Some "Invalid email or password."))
  /\ (Hashed.login_post bcrypt_compare d s1 unknown p1).(response)
     = Send 401 "Invalid email or password."
  /\ (forall p : string,
        bcrypt_compare p u.(User.password) = false ->
        (Hashed.login_post bcrypt_compare d s2 registered (Some p)).(response)
        = Send 401 "Invalid email or password.")
  /\ (Hashed.login_post bcrypt_compare d s2 registered None).(response)
     = Send 500 "Error logging in.".
Proof.
  intros Hunknown Hreg Hwrong.
  repeat match goal with |- _ /\ _ => split end.
  - unfold Registry.login_post. now rewrite Hunknown.
  - unfold Registry.login_post. rewrite Hreg.
    assert (E : Js.opt_eqb (Some u.(User.password)) p2 = false).
    { apply opt_eqb_neq. congruence. }
    now rewrite E.
  - unfold Hashed.login_post. now rewrite Hunknown.
  - intros p Hv. unfold Hashed.login_post. rewrite Hreg.
    cbn [bind]. now rewrite Hv.
  - unfold Hashed.login_post. now rewrite Hreg.
Qed.

Lemma failed_login_responses_witness :
  Model.findUserByEmail (Some "zed@x.edu") Sample.campus.(users) = None
  /\ Model.findUserByEmail (Some "bob@x.edu") Sample.campus.(users)
     = Some Sample.bob
  /\ (Registry.login_post Sample.campus None (Some "zed@x.edu")
        (Some "hunter2")).(response)
     = Render (V_login (Some "Invalid email or password."))
  /\ (Registry.login_post Sample.campus None (Some "bob@x.edu")
        (Some "hunter3")).(response)
     = Render (V_login (Some "Invalid email or password.")).
Proof.
  split; [reflexivity|]. split; [reflexivity|].
  pose proof (failed_login_responses Sample.campus None None
                (Some "zed@x.edu") (Some "bob@x.edu") (Some "hunter2")
                (Some "hunter3") Sample.bob Sample.toy_compare
                eq_refl eq_refl ltac:(discriminate)) as H.
  destruct H as (H1 & H2 & _).
  split; [exact H1 | exact H2].
Defined.

Lemma saveNewUser_emails (name email password : option string)
  (d d' : Database) (u : User.t) :
  Model.saveNewUser name email password d = Ok (u, d') ->
  d'.(users) = (d.(users) ++ [u])%list
  /\ ~ In u.(User.email) (map User.email d.(users)).
Proof.
  unfold Model.saveNewUser. intro H.
  destruct (Schema.required "name" name) as [n|]; cbn [bind] in H;
    [|discriminate].
  destruct (Schema.required "email" email) as [e|]; cbn [bind] in H;
    [|discriminate].
  destruct (Schema.required "password" password) as [p|]; cbn [bind] in H;
    [|discriminate].
  destruct (existsb _ d.(users)) eqn:E; [discriminate|].
  injection H as <- <-. cbn. split; [reflexivity|].
  intro Hin. apply in_map_iff in Hin. destruct Hin as [v [Hv Hin]].
  assert (T : existsb (fun u => String.eqb u.(User.email) e) d.(users) = true).
  { apply existsb_exists. exists v. split; [exact Hin|].
    now apply String.eqb_eq. }
  congruence.
Qed.

Lemma NoDup_snoc {A : Type} (l : list A) (x : A) :
  NoDup l -> ~ In x l -> NoDup (l ++ [x]).
Proof.
  intros ND Hx. apply (Permutation_NoDup (l := x :: l)).
  - apply Permutation_cons_append.
  - now constructor.
Qed.

(** X1.  The unique index on [email] is an invariant of signup: when no two
    stored users share an email before a signup request, none do after it,
    in the registry variant and in the hashed one. *)
Theorem signup_keeps_emails_unique (d : Database) (s : Session)
  (name email password : option string)
  (bcrypt_hash : string -> N -> string -> string) (salt : string) :
  NoDup (map User.email d.(users)) ->
  NoDup (map User.email
           (Registry.signup_post d s name email password).(db).(users))
  /\ NoDup (map User.email
              (Hashed.signup_post bcrypt_hash salt d s name email
                 password).(db).(users)).
Proof.
  intro ND. split.
  - unfold Registry.signup_post.
    destruct (negb (Js.truthy email) || negb (Js.truthy name)
              || negb (Js.truthy password)); [exact ND|].
    destruct (Model.findUserByEmail email d.(users)); [exact ND|].
    destruct (Model.saveNewUser name email password d) as [[u d']|] eqn:E;
      cbn [bind try_catch respond db fst snd]; [|exact ND].
    apply saveNewUser_emails in E. destruct E as [-> Hnew].
    rewrite map_app. now apply NoDup_snoc.
  - unfold Hashed.signup_post.
    destruct (Model.findUserByEmail email d.(users)); [exact ND|].
    destruct password as [p|]; cbn [bind try_catch respond db]; [|exact ND].
    destruct (Model.saveNewUser name email _ d) as [[u d']|] eqn:E;
      cbn [bind try_catch respond db fst snd]; [|exact ND].
    apply saveNewUser_emails in E. destruct E as [-> Hnew].
    rewrite map_app. now apply NoDup_snoc.
Qed.

Lemma signup_keeps_emails_unique_witness :
  NoDup (map User.email Sample.campus.(users))
  /\ NoDup (map User.email
              (Registry.signup_post Sample.campus None (Some "Cy")
                 (Some "cy@x.edu") (Some "pw3")).(db).(users)).
Proof.
  assert (ND : NoDup (map User.email Sample.campus.(users))).
  { repeat constructor; simpl; intuition discriminate. }
  split; [exact ND|].
  exact (proj1 (signup_keeps_emails_unique Sample.campus None (Some "Cy")
                  (Some "cy@x.edu") (Some "pw3") Sample.toy_hash "salt" ND)).
Defined.



End Accounts.

(** ** Items: update and delete *)

Module Posts.

Import JsFacts ModelFacts.

Lemma findItemById_Some (id : ObjectId) (l : list Item.t) (item : Item.t) :
  Model.findItemById id l = Some item ->
  In item l /\ item.(Item._id) = id.
Proof.
  unfold Model.findItemById. intro H. apply find_some in H.
  destruct H as [Hin Hid]. now apply N.eqb_eq in Hid.
Qed.

Lemma findItemById_None (id : ObjectId) (l : list Item.t) :
  Model.findItemById id l = None <->
  forall item, In item l -> item.(Item._id) <> id.
Proof.
  unfold Model.findItemById. split.
  - intros H item Hin E. pose proof (find_none _ _ H item Hin) as F.
    simpl in F. apply N.eqb_neq in F. contradiction.
  - intro H. induction l as [|i l IH]; simpl; [reflexivity|].
    destruct (N.eqb i.(Item._id) id) eqn:E.
    + apply N.eqb_eq in E. exfalso. apply (H i); [now left | exact E].
    + apply IH. intros item Hin. apply H. now right.
Qed.

Lemma find_after_replace (doc item : Item.t) (l : list Item.t) :
  Model.findItemById item.(Item._id) l = Some item ->
  doc.(Item._id) = item.(Item._id) ->
  Model.findItemById item.(Item._id) (Model.replaceItem doc l) = Some doc.
Proof.
  unfold Model.findItemById. intros Hfind Hid.
  induction l as [|i l IH]; simpl in *; [discriminate|].
  rewrite Hid.
  destruct (N.eqb i.(Item._id) item.(Item._id)) eqn:E; simpl.
  - now rewrite Hid, N.eqb_refl.
  - rewrite E. now apply IH.
Qed.

Lemma same_paths_true (a b : Item.t) :
  Item.same_paths a b = true ->
  a.(Item.name) = b.(Item.name)
  /\ a.(Item.description) = b.(Item.description)
  /\ a.(Item.status) = b.(Item.status)
  /\ a.(Item.category) = b.(Item.category)
  /\ a.(Item.university) = b.(Item.university)
  /\ a.(Item.imageUrl) = b.(Item.imageUrl)
  /\ a.(Item.contactEmail) = b.(Item.contactEmail)
  /\ a.(Item.contactPhone) = b.(Item.contactPhone).
Proof.
  unfold Item.same_paths. intro H.
  repeat (apply andb_true_iff in H; destruct H as [H ?]).
  repeat match goal with
         | E : String.eqb _ _ = true |- _ => apply String.eqb_eq in E
         end.
  repeat split; assumption.
Qed.

(** What a validated item says about the paths it was built from. *)
Lemma validateItem_Ok (p : ItemPaths) (id owner : ObjectId)
  (created updated : Z) (doc : Item.t) :
  Model.validateItem p id owner created updated = Ok doc ->
  p.(p_name) = Some doc.(Item.name)
  /\ p.(p_description) = Some doc.(Item.description)
  /\ p.(p_status) = Some doc.(Item.status)
  /\ p.(p_category) = Some doc.(Item.category)
  /\ p.(p_university) = Some doc.(Item.university)
  /\ p.(p_imageUrl) = Some doc.(Item.imageUrl)
  /\ p.(p_contactEmail) = Some doc.(Item.contactEmail)
  /\ p.(p_contactPhone) = Some doc.(Item.contactPhone)
  /\ doc.(Item._id) = id /\ doc.(Item.reportedBy) = owner
  /\ doc.(Item.createdAt) = created.
Proof.
  unfold Model.validateItem. intro H.
  repeat match type of H with
         | bind (Schema.required ?path ?v) _ = _ =>
             let E := fresh "E" in
             destruct (Schema.required path v) eqn:E; cbn [bind] in H;
             [apply required_Ok in E; destruct E as [E _] | discriminate]
         | bind (Schema.status_enum ?v) _ = _ =>
             let E := fresh "E" in
             destruct (Schema.status_enum v) eqn:E; cbn [bind] in H;
             [|discriminate]
         end.
  injection H as <-. cbn.
  unfold Schema.status_enum in *.
  match goal with
  | E : (if ?c then _ else _) = Ok _ |- _ =>
      destruct c; [injection E as <- | discriminate]
  end.
  repeat split; assumption.
Qed.

(** C2.  When the stored item with the requested id was reported by
    someone other than the requester, update and delete both answer 403
    and hand back the database as it was; when no stored item has the
    requested id, both answer 404, again with the database as it was.
    The lookup by id fails exactly when no stored item carries the id. *)
Theorem non_owner_and_missing_item_are_refused (env : Env) (d : Database)
  (user : SessionUser.t) (id : ObjectId) (body : ItemForm)
  (file : option string) :
  (forall item,
      Model.findItemById id d.(items) = Some item ->
      item.(Item.reportedBy) <> user.(SessionUser.id) ->
      In item d.(items)
      /\ Registry.item_update_post env d (Some user) (Some id) body file
         = respond (Send 403 "Unauthorized") d (Some user)
      /\ Registry.item_delete_post d (Some user) (Some id)
         = respond (Send 403 "Unauthorized.") d (Some user))
  /\ ((forall item, In item d.(items) -> item.(Item._id) <> id) ->
      Registry.item_update_post env d (Some user) (Some id) body file
      = respond (Send 404 "Item not found") d (Some user)
      /\ Registry.item_delete_post d (Some user) (Some id)
         = respond (Send 404 "Not found.") d (Some user)).
Proof.
  split.
  - intros item Hfind Hother.
    assert (E : N.eqb item.(Item.reportedBy) user.(SessionUser.id) = false)
      by now apply N.eqb_neq.
    split; [now apply (findItemById_Some id)|].
    unfold Registry.item_update_post, Registry.item_delete_post.
    cbn [castObjectId bind]. rewrite Hfind, E. split; reflexivity.
  - intro Hnone. apply findItemById_None in Hnone.
    unfold Registry.item_update_post, Registry.item_delete_post.
    cbn [castObjectId bind]. rewrite Hnone. split; reflexivity.
Qed.

Lemma non_owner_and_missing_item_are_refused_witness :
  Model.findItemById 10%N Sample.campus.(items) = Some Sample.bottle
  /\ Sample.bottle.(Item.reportedBy) <> 2%N
  /\ Registry.item_delete_post Sample.campus Sample.as_bob (Some 10%N)
     = respond (Send 403 "Unauthorized.") Sample.campus Sample.as_bob
  /\ Registry.item_update_post Sample.no_upload Sample.campus Sample.as_bob
       (Some 99%N) (Sample.edit_form "Mine now") None
     = respond (Send 404 "Item not found") Sample.campus Sample.as_bob.
Proof.
  split; [reflexivity|]. split; [discriminate|]. split.
  - exact (proj2 (proj2 (proj1
             (non_owner_and_missing_item_are_refused Sample.no_upload
                Sample.campus (Registry.sessionOf Sample.bob) 10%N
                (Sample.edit_form "Mine now") None)
             Sample.bottle eq_refl ltac:(discriminate)))).
  - refine (proj1 (proj2
             (non_owner_and_missing_item_are_refused Sample.no_upload
                Sample.campus (Registry.sessionOf Sample.bob) 99%N
                (Sample.edit_form "Mine now") None) _)).
    intros item [<-|[<-|[]]]; discriminate.
Defined.

(** C8, counterexample.  Ann renames her item to " Key " with a space on
    either side and sends no image: the update succeeds, and the name
    stored is "Key", not the submitted value. *)
Lemma update_overwrites_counterexample :
  let o := Registry.item_update_post Sample.no_upload Sample.campus
             Sample.as_ann (Some 10%N) (Sample.edit_form " Key ") None in
  o.(response) = Redirect "/my-posts"
  /\ option_map Item.name (Model.findItemById 10%N o.(db).(items))
     = Some "Key"
  /\ Some "Key" <> (Sample.edit_form " Key ").(f_itemName).
Proof. cbv zeta. repeat split; try reflexivity. discriminate. Qed.

(** C8, amended.  After a successful update of an item by its owner the
    stored item has: [status], [contactEmail], [contactPhone] as
    submitted; [name], [description], [category], [university] as
    submitted with the white space around them trimmed; [imageUrl]
    the [secure_url] of the upload when a file came with the request and
    the old value otherwise; [_id], [reportedBy] and [createdAt] as
    before. *)
Theorem update_overwrites_form_fields_only (env : Env) (d : Database)
  (user : SessionUser.t) (id : ObjectId) (body : ItemForm)
  (file : option string) (item : Item.t) :
  Model.findItemById id d.(items) = Some item ->
  item.(Item.reportedBy) = user.(SessionUser.id) ->
  let o := Registry.item_update_post env d (Some user) (Some id) body file in
  o.(response) = Redirect "/my-posts" ->
  exists doc : Item.t,
    Model.findItemById id o.(db).(items) = Some doc
    /\ option_map Js.trim body.(f_itemName) = Some doc.(Item.name)
    /\ option_map Js.trim body.(f_description) = Some doc.(Item.description)
    /\ body.(f_status) = Some doc.(Item.status)
    /\ option_map Js.trim body.(f_category) = Some doc.(Item.category)
    /\ option_map Js.trim body.(f_university) = Some doc.(Item.university)
    /\ body.(f_contactEmail) = Some doc.(Item.contactEmail)
    /\ body.(f_contactPhone) = Some doc.(Item.contactPhone)
    /\ match file with
       | Some buffer => env.(upload_stream) buffer = Some doc.(Item.imageUrl)
       | None => doc.(Item.imageUrl) = item.(Item.imageUrl)
       end
    /\ doc.(Item._id) = item.(Item._id)
    /\ doc.(Item.reportedBy) = item.(Item.reportedBy)
    /\ doc.(Item.createdAt) = item.(Item.createdAt).
Proof.
  intros Hfind Hown o. subst o.
  destruct (findItemById_Some _ _ _ Hfind) as [_ Hid].
  unfold Registry.item_update_post. cbn [castObjectId bind].
  assert (Eown : N.eqb item.(Item.reportedBy) user.(SessionUser.id) = true)
    by now apply N.eqb_eq.
  rewrite Hfind, Eown. cbn [negb].
  set (p := Registry.assignForm item body).
  assert (Hsave : forall p' : ItemPaths,
    p'.(p_name) = p.(p_name) -> p'.(p_description) = p.(p_description) ->
    p'.(p_status) = p.(p_status) -> p'.(p_category) = p.(p_category) ->
    p'.(p_university) = p.(p_university) ->
    p'.(p_contactEmail) = p.(p_contactEmail) ->
    p'.(p_contactPhone) = p.(p_contactPhone) ->
    forall saved, Registry.saveItem env item p' = Ok saved ->
    Model.findItemById id
      (Model.replaceItem saved d.(items)) = Some saved
    /\ option_map Js.trim body.(f_itemName) = Some saved.(Item.name)
    /\ option_map Js.trim body.(f_description)
       = Some saved.(Item.description)
    /\ body.(f_status) = Some saved.(Item.status)
    /\ option_map Js.trim body.(f_category) = Some saved.(Item.category)
    /\ option_map Js.trim body.(f_university)
       = Some saved.(Item.university)
    /\ body.(f_contactEmail) = Some saved.(Item.contactEmail)
    /\ body.(f_contactPhone) = Some saved.(Item.contactPhone)
    /\ p'.(p_imageUrl) = Some saved.(Item.imageUrl)
    /\ saved.(Item._id) = item.(Item._id)
    /\ saved.(Item.reportedBy) = item.(Item.reportedBy)
    /\ saved.(Item.createdAt) = item.(Item.createdAt)).
  { intros p' E1 E2 E3 E4 E5 E6 E7 saved Hs.
    unfold Registry.saveItem in Hs.
    destruct (Model.validateItem p' _ _ _ _) as [doc|] eqn:V;
      cbn [bind] in Hs; [|discriminate].
    apply validateItem_Ok in V.
    destruct V as (V1 & V2 & V3 & V4 & V5 & V6 & V7 & V8 & V9 & V10 & V11).
    rewrite E1 in V1. rewrite E2 in V2. rewrite E3 in V3. rewrite E4 in V4.
    rewrite E5 in V5. rewrite E6 in V7. rewrite E7 in V8.
    subst p. cbn in V1, V2, V3, V4, V5, V7, V8.
    unfold Schema.set_trim in *.
    destruct (Item.same_paths doc item) eqn:S; injection Hs as <-.
    - apply same_paths_true in S.
      destruct S as (S1 & S2 & S3 & S4 & S5 & S6 & S7 & S8).
      rewrite <- S1, <- S2, <- S3, <- S4, <- S5, <- S6, <- S7, <- S8.
      rewrite <- Hid at 1.
      split; [now apply find_after_replace; rewrite ?Hid|].
      repeat split; assumption.
    - rewrite <- Hid at 1.
      split; [apply find_after_replace; [now rewrite Hid | congruence]|].
      repeat split; assumption. }
  destruct file as [buffer|].
  - destruct (env.(upload_stream) buffer) as [url|] eqn:U;
      cbn [bind try_catch]; [|discriminate].
    destruct (Registry.saveItem env item (Registry.setImageUrl p url))
      as [saved|] eqn:Hs; cbn [bind try_catch]; [|discriminate].
    intros _. exists saved. cbn.
    destruct (Hsave (Registry.setImageUrl p url) eq_refl eq_refl eq_refl
                eq_refl eq_refl eq_refl eq_refl saved Hs)
      as (H0 & H1 & H2 & H3 & H4 & H5 & H6 & H7 & H8 & H9 & H10 & H11).
    cbn in H8. injection H8 as H8.
    repeat split; try assumption. congruence.
  - cbn [bind].
    destruct (Registry.saveItem env item p) as [saved|] eqn:Hs;
      cbn [bind try_catch]; [|discriminate].
    intros _. exists saved. cbn.
    destruct (Hsave p eq_refl eq_refl eq_refl eq_refl eq_refl eq_refl
                eq_refl saved Hs)
      as (H0 & H1 & H2 & H3 & H4 & H5 & H6 & H7 & H8 & H9 & H10 & H11).
    subst p. cbn in H8. injection H8 as H8.
    repeat split; try assumption. now symmetry.
Qed.

Lemma update_overwrites_form_fields_only_witness :
  let o := Registry.item_update_post Sample.no_upload Sample.campus
             Sample.as_ann (Some 10%N) (Sample.edit_form " Green Bottle")
             None in
  Model.findItemById 10%N Sample.campus.(items) = Some Sample.bottle
  /\ o.(response) = Redirect "/my-posts"
  /\ exists doc : Item.t,
       Model.findItemById 10%N o.(db).(items) = Some doc
       /\ doc.(Item.name) = "Green Bottle"
       /\ doc.(Item.imageUrl) = Sample.bottle.(Item.imageUrl)
       /\ doc.(Item.createdAt) = 1000%Z.
Proof.
  cbv zeta. split; [reflexivity|]. split; [reflexivity|].
  destruct (update_overwrites_form_fields_only Sample.no_upload
              Sample.campus (Registry.sessionOf Sample.ann) 10%N
              (Sample.edit_form " Green Bottle") None Sample.bottle
              eq_refl eq_refl eq_refl)
    as (doc & H0 & H1 & _ & _ & _ & _ & _ & _ & H8 & _ & _ & H11).
  exists doc. split; [exact H0|]. split; [|split; assumption].
  injection H1 as <-. reflexivity.
Defined.

Lemma find_after_delete_other (id other : ObjectId) (l : list Item.t) :
  other <> id ->
  Model.findItemById other (Model.deleteItemById id l)
  = Model.findItemById other l.
Proof.
  intro Hne. unfold Model.findItemById.
  induction l as [|i l IH]; [reflexivity|]. cbn [Model.deleteItemById find].
  destruct (N.eqb i.(Item._id) id) eqn:E.
  - apply N.eqb_eq in E.
    assert (F : N.eqb i.(Item._id) other = false)
      by (apply N.eqb_neq; congruence).
    now rewrite F.
  - cbn [find]. now rewrite IH.
Qed.

Lemma find_after_delete (id : ObjectId) (l : list Item.t) :
  NoDup (map Item._id l) ->
  Model.findItemById id (Model.deleteItemById id l) = None.
Proof.
  intro ND. apply findItemById_None.
  induction l as [|i l IH]; [intros ? []|].
  cbn [map] in ND. inversion ND as [|? ? Hnotin ND']; subst.
  cbn [Model.deleteItemById].
  destruct (N.eqb i.(Item._id) id) eqn:E.
  - apply N.eqb_eq in E. intros item Hin Hid. apply Hnotin.
    rewrite E, <- Hid. now apply in_map.
  - apply N.eqb_neq in E. intros item [<-|Hin]; [exact E | now apply IH].
Qed.

(** X3.  Delete by the owner: the handler redirects to the owner's posts and
    removes the item with the requested id and nothing else.  When ids are
    unique, a later lookup of the id finds nothing; the lookup of any other
    id is as before. *)
Theorem owner_delete_removes_the_item (d : Database) (user : SessionUser.t)
  (id : ObjectId) (item : Item.t) :
  Model.findItemById id d.(items) = Some item ->
  item.(Item.reportedBy) = user.(SessionUser.id) ->
  let o := Registry.item_delete_post d (Some user) (Some id) in
  o = respond (Redirect "/my-posts")
        (with_items d (Model.deleteItemById id d.(items))) (Some user)
  /\ (NoDup (map Item._id d.(items)) ->
      Model.findItemById id o.(db).(items) = None)
  /\ (forall other, other <> id ->
        Model.findItemById other o.(db).(items)
        = Model.findItemById other d.(items)).
Proof.
  intros Hfind Hown o.
  assert (E : o = respond (Redirect "/my-posts")
                    (with_items d (Model.deleteItemById id d.(items)))
                    (Some user)).
  { subst o. unfold Registry.item_delete_post. cbn [castObjectId bind].
    rewrite Hfind.
    assert (Eo : N.eqb item.(Item.reportedBy) user.(SessionUser.id) = true)
      by now apply N.eqb_eq.
    now rewrite Eo. }
  split; [exact E|]. rewrite E. cbn [respond db with_items items]. split.
  - apply find_after_delete.
  - intros other Hne. now apply find_after_delete_other.
Qed.

Lemma owner_delete_removes_the_item_witness :
  Model.findItemById 10%N Sample.campus.(items) = Some Sample.bottle
  /\ (Registry.item_delete_post Sample.campus Sample.as_ann
        (Some 10%N)).(db).(items) = [Sample.keys].
Proof.
  split; [reflexivity|].
  destruct (owner_delete_removes_the_item Sample.campus
              (Registry.sessionOf Sample.ann) 10%N Sample.bottle
              eq_refl eq_refl) as [H _].
  exact (f_equal (fun o : Outcome => o.(db).(items)) H).
Defined.

End Posts.

(** ** The matcher on patterns without syntax characters *)

Module RegexFacts.

Import Regex.

Lemma match_here_Never (ci bos : bool) (s : string) :
  match_here ci bos Never s = false.
Proof.
  revert bos. induction s as [|c s IH]; intro bos; simpl; [reflexivity|].
  apply IH.
Qed.

Lemma match_here_Seq_Never (ci bos : bool) (r : regex) (s : string) :
  match_here ci bos (Seq Never r) s = false.
Proof.
  revert bos. induction s as [|c s IH]; intro bos; simpl; [reflexivity|].
  apply IH.
Qed.

Lemma match_here_Alt (ci bos : bool) (r1 r2 : regex) (s : string) :
  match_here ci bos (Alt r1 r2) s
  = match_here ci bos r1 s || match_here ci bos r2 s.
Proof.
  revert bos r1 r2.
  induction s as [|c s IH]; intros bos r1 r2.
  - simpl. now rewrite !orb_false_r.
  - cbn [match_here nullable deriv]. rewrite IH. btauto.
Qed.

Lemma match_here_Seq_Empty (ci bos : bool) (r : regex) (s : string) :
  match_here ci bos (Seq Empty r) s = match_here ci bos r s.
Proof.
  destruct s as [|c s]; simpl; [reflexivity|].
  now rewrite match_here_Alt, match_here_Seq_Never.
Qed.

(** A pattern that begins with a literal character reads one character
    of the subject. *)
Lemma match_here_Seq_Char (ci bos : bool) (a : ascii) (r : regex)
  (s : string) :
  match_here ci bos (Seq (Char a) r) s
  = match s with
    | EmptyString => false
    | String c s' => char_eq ci a c && match_here ci false r s'
    end.
Proof.
  destruct s as [|c s]; simpl; [reflexivity|].
  destruct (char_eq ci a c); simpl.
  - apply match_here_Seq_Empty.
  - apply match_here_Seq_Never.
Qed.

Lemma match_here_literal (bos : bool) (p s : string) :
  match_here true bos (Plain.literal p) s = Plain.startsWithIgnoreCase p s.
Proof.
  unfold Plain.literal. revert bos s. induction p as [|a p IH]; intros bos s.
  - destruct s; reflexivity.
  - cbn [Plain.literal_then]. rewrite match_here_Seq_Char.
    destruct s as [|c s]; cbn [Plain.startsWithIgnoreCase]; [reflexivity|].
    now rewrite IH.
Qed.

Lemma search_literal (bos : bool) (p s : string) :
  search true bos (Plain.literal p) s = Plain.containsIgnoreCase s p.
Proof.
  revert bos.
  induction s as [|c s IH]; intro bos;
    cbn [search Plain.containsIgnoreCase]; rewrite match_here_literal.
  - reflexivity.
  - now rewrite IH.
Qed.

(** *** Reading a pattern without syntax characters *)

Lemma plain_char (c : ascii) :
  is_syntax_char c = false ->
  Ascii.eqb c "\" = false /\ Ascii.eqb c "(" = false
  /\ Ascii.eqb c ")" = false /\ Ascii.eqb c "|" = false
  /\ Ascii.eqb c "*" = false /\ Ascii.eqb c "+" = false
  /\ Ascii.eqb c "?" = false /\ Ascii.eqb c "." = false
  /\ Ascii.eqb c "^" = false /\ Ascii.eqb c "$" = false.
Proof.
  unfold is_syntax_char. cbn [existsb]. intro H.
  repeat match type of H with
         | _ || _ = false =>
             apply orb_false_iff in H;
             let E := fresh "E" in destruct H as [E H]
         end.
  repeat split; assumption.
Qed.

(** The reader walks over plain characters and stacks them as atoms. *)
Lemma parse_plain (p rest : string) (top : frame) (stack : list frame) :
  Plain.is_plain p = true ->
  parse (p ++ rest) false top stack
  = parse rest false
      {| alts := top.(alts); cur := rev (Plain.atoms p) ++ top.(cur) |}
      stack.
Proof.
  revert top. induction p as [|c p IH]; intros top Hp.
  - destruct top; reflexivity.
  - cbn [Plain.is_plain] in Hp. apply andb_true_iff in Hp.
    destruct Hp as [Hc Hp]. apply negb_true_iff in Hc.
    destruct (plain_char c Hc)
      as (E1 & E2 & E3 & E4 & E5 & E6 & E7 & E8 & E9 & E10).
    cbn [append parse].
    rewrite E1, E2, E3, E4, E5, E6, E7, E8, E9, E10, Hc. cbn [orb].
    rewrite (IH _ Hp). unfold Plain.atoms.
    cbn [list_ascii_of_string map rev].
    cbn [push_atom alts cur]. now rewrite <- app_assoc.
Qed.

Lemma seq_of_atoms (p : string) (tail : regex) :
  fold_left (fun acc a => Seq (fst a) acc) (rev (Plain.atoms p)) tail
  = Plain.literal_then p tail.
Proof.
  induction p as [|c p IH]; [reflexivity|].
  unfold Plain.atoms in *. cbn [list_ascii_of_string map rev].
  rewrite fold_left_app. cbn [fold_left fst Plain.literal_then].
  now rewrite IH.
Qed.

Lemma compile_plain (p : string) :
  Plain.is_plain p = true -> compile p = Compiled (Plain.literal p).
Proof.
  intro Hp. unfold compile.
  rewrite <- (JsFacts.append_empty_r p) at 1.
  rewrite (parse_plain p "" empty_frame [] Hp). cbn [parse].
  unfold close. cbn [alts cur empty_frame fold_left].
  unfold seq_of. now rewrite app_nil_r, seq_of_atoms.
Qed.

(** *** The anchored expression of the existence check *)

Lemma match_here_Seq_Bol (ci bos : bool) (r : regex) (s : string) :
  match_here ci bos (Seq Bol r) s = bos && match_here ci bos r s.
Proof.
  destruct bos.
  - destruct s as [|c s]; cbn [match_here nullable deriv andb];
      [reflexivity|].
    now rewrite match_here_Alt, match_here_Seq_Never.
  - destruct s as [|c s]; cbn [match_here nullable deriv andb orb];
      [reflexivity|].
    apply match_here_Seq_Never.
Qed.

Lemma search_Seq_Bol_later (ci : bool) (r : regex) (s : string) :
  search ci false (Seq Bol r) s = false.
Proof.
  induction s as [|c s IH]; cbn [search]; rewrite match_here_Seq_Bol;
    [reflexivity | exact IH].
Qed.

Lemma match_here_Eol (ci bos : bool) (s : string) :
  match_here ci bos (Seq Eol Empty) s = at_eol s.
Proof.
  destruct s as [|c s]; cbn [match_here nullable deriv]; [reflexivity|].
  rewrite andb_true_r.
  destruct (at_eol (String c s)); cbn [orb]; [reflexivity|].
  apply match_here_Seq_Never.
Qed.

Lemma match_here_literal_Eol (bos : bool) (p s : string) :
  match_here true bos (Plain.literal_then p (Seq Eol Empty)) s
  = Plain.matchesWholeIgnoreCase p s.
Proof.
  revert bos s. induction p as [|a p IH]; intros bos s;
    cbn [Plain.literal_then Plain.matchesWholeIgnoreCase].
  - apply match_here_Eol.
  - rewrite match_here_Seq_Char. destruct s as [|c s]; [reflexivity|].
    now rewrite IH.
Qed.

Lemma compile_anchored (p : string) :
  Plain.is_plain p = true ->
  compile ("^" ++ p ++ "$")
  = Compiled (Seq Bol (Plain.literal_then p (Seq Eol Empty))).
Proof.
  intro Hp. unfold compile. cbn [append parse Ascii.eqb Bool.eqb orb].
  rewrite (parse_plain p "$" _ [] Hp).
  cbn [parse Ascii.eqb Bool.eqb orb is_syntax_char existsb].
  unfold close, seq_of.
  cbn [alts cur push_atom empty_frame fold_left fst].
  now rewrite fold_left_app, seq_of_atoms.
Qed.

(** The existence check for a name without syntax characters. *)
Lemma test_anchored (p : string) (re : regex) (s : string) :
  Plain.is_plain p = true -> compile ("^" ++ p ++ "$") = Compiled re ->
  test true re s = Plain.matchesWholeIgnoreCase p s.
Proof.
  intros Hp Hc. rewrite (compile_anchored p Hp) in Hc. injection Hc as <-.
  unfold test. destruct s as [|c s]; cbn [search].
  - now rewrite orb_false_r, match_here_Seq_Bol, match_here_literal_Eol.
  - now rewrite search_Seq_Bol_later, orb_false_r, match_here_Seq_Bol,
      match_here_literal_Eol.
Qed.

(** *** The wording of the specification, decided *)

Lemma char_eq_lower (a c : ascii) :
  char_eq true a c = true <-> Js.lower_ascii a = Js.lower_ascii c.
Proof. unfold char_eq. apply Ascii.eqb_eq. Qed.

Lemma startsWithIgnoreCase_spec (sub s : string) :
  Plain.startsWithIgnoreCase sub s = true <->
  exists after : string,
    Js.toLowerCase s = Js.toLowerCase sub ++ after.
Proof.
  revert s. induction sub as [|a sub IH]; intro s.
  - simpl. split; [intros _; now exists (Js.toLowerCase s) | reflexivity].
  - destruct s as [|c s]; cbn [Plain.startsWithIgnoreCase Js.toLowerCase].
    + split; [discriminate | intros [after H]; discriminate].
    + rewrite andb_true_iff, char_eq_lower, IH. cbn [append]. split.
      * intros [E [after H]]. exists after. now rewrite E, H.
      * intros [after H]. injection H as E H. split; [now symmetry|].
        now exists after.
Qed.

Lemma containsIgnoreCase_spec (name sub : string) :
  Plain.containsIgnoreCase name sub = true <->
  Spec.ContainsIgnoreCase name sub.
Proof.
  unfold Spec.ContainsIgnoreCase.
  induction name as [|c name IH]; cbn [Plain.containsIgnoreCase].
  - rewrite orb_false_r, startsWithIgnoreCase_spec. split.
    + intros [after H]. now exists "", after.
    + intros [[|b before] [after H]]; [now exists after | discriminate].
  - rewrite orb_true_iff, startsWithIgnoreCase_spec, IH. split.
    + intros [[after H]|[before [after H]]].
      * now exists "", after.
      * exists (String (Js.lower_ascii c) before), after.
        cbn [Js.toLowerCase append]. now rewrite H.
    + intros [[|b before] [after H]].
      * left. now exists after.
      * right. cbn [Js.toLowerCase append] in H. injection H as _ H.
        now exists before, after.
Qed.

Lemma matchesWholeIgnoreCase_spec (p s : string) :
  Plain.matchesWholeIgnoreCase p s = true <->
  Spec.EqualIgnoreCase s p
  \/ exists s0, s = s0 ++ String LF "" /\ Spec.EqualIgnoreCase s0 p.
Proof.
  unfold Spec.EqualIgnoreCase. revert s.
  induction p as [|a p IH]; intro s; cbn [Plain.matchesWholeIgnoreCase].
  - destruct s as [|c [|c' s]]; cbn [at_eol].
    + split; [now left | reflexivity].
    + rewrite Ascii.eqb_eq. split.
      * intros ->. right. now exists "".
      * intros [H|[s0 [H E]]]; [discriminate|].
        apply JsFacts.toLowerCase_eq_empty in E. subst s0.
        now injection H.
    + split; [discriminate|]. intros [H|[s0 [H E]]]; [discriminate|].
      apply JsFacts.toLowerCase_eq_empty in E. subst s0. discriminate.
  - destruct s as [|c s].
    + split; [discriminate|]. intros [H|[s0 [H E]]]; [discriminate|].
      symmetry in H. apply JsFacts.append_eq_empty in H.
      destruct H; discriminate.
    + rewrite andb_true_iff, char_eq_lower, IH.
      cbn [Js.toLowerCase]. split.
      * intros [Ec [H|[s0 [H E]]]].
        -- left. now rewrite Ec, H.
        -- right. exists (String c s0). subst s. split; [reflexivity|].
           cbn [Js.toLowerCase]. now rewrite Ec, E.
      * intros [H|[s0 [H E]]].
        -- injection H as Ec H. split; [now symmetry | now left].
        -- destruct s0 as [|c0 s0]; [discriminate|].
           cbn [append] in H. injection H as -> ->.
           cbn [Js.toLowerCase] in E. injection E as Ec E.
           split; [now symmetry|]. right. now exists s0.
Qed.

(** For a search string without syntax characters the regular expression
    search is containment without regard to case. *)
Lemma plain_search_is_containment (p : string) (re : regex) (name : string) :
  Plain.is_plain p = true -> compile p = Compiled re ->
  test true re name = true <-> Spec.ContainsIgnoreCase name p.
Proof.
  intros Hp Hc. rewrite (compile_plain p Hp) in Hc. injection Hc as <-.
  unfold test. rewrite search_literal. apply containsIgnoreCase_spec.
Qed.

End RegexFacts.

(** ** Browsing: the item listing *)

Module Browse.

Import JsFacts.

(** C7, counterexample.  In the registry variant a request for the
    listing that carries neither a session nor a university is sent to the
    login page, not to the landing page. *)
Lemma items_without_university_counterexample :
  Registry.items_get Sample.campus None (Sample.any_query None None None)
  = Some (respond (Redirect "/login?error=must_login") Sample.campus None).
Proof. reflexivity. Qed.

(** C7, amended.  A request for the listing whose university parameter
    is absent or empty is answered with a redirect and with no item list:
    in the registry variant to the landing page when the request carries
    a session and to the login page when it does not, in the hashed
    variant always to the landing page.  The answer does not depend on
    the item collection, and the database is handed back as it was. *)
Theorem items_without_university_redirects (d : Database) (s : Session)
  (q : ItemsQuery) :
  Js.truthy q.(q_university) = false ->
  Registry.items_get d s q
    = Some (respond
              (match s with
               | Some _ => Redirect "/"
               | None => Redirect "/login?error=must_login"
               end) d s)
  /\ Hashed.items_get d s q = Some (respond (Redirect "/") d s)
  /\ forall stored : list Item.t,
       option_map response (Registry.items_get (with_items d stored) s q)
       = option_map response (Registry.items_get d s q)
       /\ option_map response (Hashed.items_get (with_items d stored) s q)
          = option_map response (Hashed.items_get d s q).
Proof.
  intro H. unfold Registry.items_get, Hashed.items_get.
  destruct q.(q_university) as [[|c u]|]; try discriminate;
    destruct s; repeat split; reflexivity.
Qed.

Lemma items_without_university_redirects_witness :
  Js.truthy (Some "") = false
  /\ Registry.items_get Sample.campus Sample.as_ann
       (Sample.any_query (Some "") (Some "Lost") None)
     = Some (respond (Redirect "/") Sample.campus Sample.as_ann).
Proof.
  split; [reflexivity|].
  exact (proj1 (items_without_university_redirects Sample.campus
                  Sample.as_ann
                  (Sample.any_query (Some "") (Some "Lost") None)
                  eq_refl)).
Defined.

(** *** Sorting *)

Lemma insertNewestFirst_perm (x : Item.t) (l : list Item.t) :
  Permutation (Model.insertNewestFirst x l) (x :: l).
Proof.
  induction l as [|y l IH]; simpl; [reflexivity|].
  destruct (y.(Item.createdAt) <=? x.(Item.createdAt))%Z; [reflexivity|].
  rewrite IH. apply perm_swap.
Qed.

Lemma sortNewestFirst_perm (l : list Item.t) :
  Permutation (Model.sortNewestFirst l) l.
Proof.
  induction l as [|x l IH]; simpl; [reflexivity|].
  rewrite insertNewestFirst_perm. now apply perm_skip.
Qed.

Lemma insertNewestFirst_sorted (x : Item.t) (l : list Item.t) :
  Spec.NewestFirst l -> Spec.NewestFirst (Model.insertNewestFirst x l).
Proof.
  unfold Spec.NewestFirst. induction l as [|y l IH]; simpl; intro S.
  - constructor; constructor.
  - inversion S as [|? ? S' Hall]; subst.
    destruct (y.(Item.createdAt) <=? x.(Item.createdAt))%Z eqn:E.
    + apply Z.leb_le in E. constructor; [exact S|].
      constructor; [exact E|].
      eapply Forall_impl; [|exact Hall]. simpl. intros; lia.
    + apply Z.leb_gt in E. constructor; [now apply IH|].
      apply (Permutation_Forall (x := x :: l)).
      * symmetry. apply insertNewestFirst_perm.
      * constructor; [lia | exact Hall].
Qed.

Lemma sortNewestFirst_sorted (l : list Item.t) :
  Spec.NewestFirst (Model.sortNewestFirst l).
Proof.
  induction l as [|x l IH]; simpl; [constructor|].
  now apply insertNewestFirst_sorted.
Qed.

(** *** The filter *)

Lemma matchesQuery_Wanted (X : string) (status : option string)
  (name_re : option Regex.regex) (i : Item.t) :
  Registry.matchesQuery X (Registry.statusFilter status) name_re i = true
  <-> Spec.Wanted X status name_re i.
Proof.
  unfold Registry.matchesQuery, Spec.Wanted, Registry.statusFilter.
  rewrite !andb_true_iff, String.eqb_eq.
  assert (Hst :
    match (if Js.truthy status then status else None) with
    | Some st => String.eqb i.(Item.status) st
    | None => true
    end = true
    <-> (forall st, status = Some st -> st <> "" -> i.(Item.status) = st)).
  { destruct status as [[|c st]|]; simpl.
    - split; [intros _ st E; injection E as <-; congruence | reflexivity].
    - rewrite String.eqb_eq. split.
      + intros H st' E. injection E as <-. now intros _.
      + intro H. apply H; [reflexivity | discriminate].
    - split; [intros _ st E; discriminate | reflexivity]. }
  assert (Hre :
    match name_re with
    | Some re => Regex.test true re i.(Item.name)
    | None => true
    end = true
    <-> (forall re, name_re = Some re ->
           Regex.test true re i.(Item.name) = true)).
  { destruct name_re as [re|].
    - split; [intros H re' E; now injection E as <- | intro H; now apply H].
    - split; [intros _ re E; discriminate | reflexivity]. }
  rewrite Hst, Hre. tauto.
Qed.

Lemma Listing_In (stored : list Item.t) (X : string)
  (status : option string) (name_re : option Regex.regex)
  (found : list Item.t) :
  Spec.Listing stored X status name_re found ->
  forall i, In i found <-> In i stored /\ Spec.Wanted X status name_re i.
Proof.
  intros [[keep [Hkeep Hperm]] _] i. rewrite <- Hkeep, <- filter_In.
  split; apply Permutation_in; [exact Hperm | now symmetry].
Qed.

Lemma renderItems_Listing (d : Database) (s : Session) (X : string)
  (q : ItemsQuery) (name_re : option Regex.regex) :
  exists found : list Item.t,
    Registry.renderItems d s X q name_re
    = respond (Render (V_items found X q.(q_status) q.(q_search))) d s
    /\ Spec.Listing d.(items) X q.(q_status) name_re found.
Proof.
  unfold Registry.renderItems. eexists. split; [reflexivity|]. split.
  - exists (Registry.matchesQuery X (Registry.statusFilter q.(q_status))
              name_re).
    split; [intro i; apply matchesQuery_Wanted | apply sortNewestFirst_perm].
  - apply sortNewestFirst_sorted.
Qed.

(** A search with a small accented letter lists the item whose name has
    the capital one. *)
Lemma search_folds_accented_letters :
  Registry.items_get Fixture.french_campus Sample.as_ann
    (Sample.any_query (Some "MIT") None (Some Fixture.cafe))
  = Some (respond
            (Render (V_items [Fixture.card] "MIT" None (Some Fixture.cafe)))
            Fixture.french_campus Sample.as_ann)
  /\ Spec.ContainsIgnoreCase Fixture.CAFE_card Fixture.cafe.
Proof.
  split; [reflexivity|].
  now apply RegexFacts.containsIgnoreCase_spec.
Qed.




End Browse.

(** ** The university registry *)

Module Universities.

(** C5, at the failing input.  Ann adds "IIT (Madras)" to an empty
    registry and then adds "iit (madras)".  The two names are equal up to
    letter case, yet the existence check of the second call builds the
    expression [^iit (madras)$], in which the parentheses form a group:
    it does not match the stored name, and the registry ends with two
    entries. *)
Theorem add_university_twice_keeps_both_spellings :
  exists d1 d2 : Database,
    Registry.add_university_post Sample.empty_db Sample.as_ann
      (Some "IIT (Madras)")
    = Some (respond (Redirect "/") d1 Sample.as_ann)
    /\ Registry.add_university_post d1 Sample.as_ann (Some "iit (madras)")
       = Some (respond (Redirect "/") d2 Sample.as_ann)
    /\ map University.name d1.(universities) = ["IIT (Madras)"]
    /\ map University.name d2.(universities)
       = ["IIT (Madras)"; "iit (madras)"]
    /\ Spec.EqualIgnoreCase "IIT (Madras)" "iit (madras)".
Proof.
  eexists. eexists.
  split; [reflexivity|]. split; [reflexivity|].
  repeat split.
Qed.

Lemma find_all_false {A : Type} (f : A -> bool) (l : list A) :
  (forall x, In x l -> f x = false) -> find f l = None.
Proof.
  induction l as [|y l IH]; intro H; simpl; [reflexivity|].
  rewrite (H y (or_introl eq_refl)). apply IH. intros x Hx. apply H. now right.
Qed.

Lemma find_one_true {A : Type} (f : A -> bool) (l : list A) (x : A) :
  In x l -> f x = true -> exists y, find f l = Some y.
Proof.
  induction l as [|y l IH]; intros Hin Hx; [contradiction|]. simpl.
  destruct (f y) eqn:E; [now exists y|].
  destruct Hin as [->|Hin]; [congruence | now apply IH].
Qed.

(** A name that differs from a stored one in the case of an accented
    letter is found by the existence check: nothing is stored. *)
Lemma accented_name_is_found :
  Spec.EqualIgnoreCase Fixture.Ecole Fixture.ecole
  /\ Registry.add_university_post Fixture.french_campus Sample.as_ann
       (Some Fixture.ecole)
     = Some (respond (Redirect "/") Fixture.french_campus Sample.as_ann).
Proof. split; reflexivity. Qed.

(** X2.  For names without syntax characters the existence check is the one
    the handler's comment announces.  Let N be such a name, non-empty and with no
    white space around it, and M a name equal to N up to letter case, the
    case of accented letters included.  On a registry of trimmed names
    none of which equals N up to letter case, the first call stores N as
    it was typed and the second call stores nothing: the registry has one
    entry for the name. *)
Theorem add_university_plain_name_once (d : Database) (user : SessionUser.t)
  (N M : string) :
  N <> "" -> Plain.is_plain N = true -> Plain.is_plain M = true -> Js.trim N = N ->
  Spec.EqualIgnoreCase N M ->
  (forall u, In u d.(universities) ->
     Js.trim u.(University.name) = u.(University.name)) ->
  (forall u, In u d.(universities) ->
     ~ Spec.EqualIgnoreCase u.(University.name) N) ->
  let d1 :=
    {| users := d.(users); items := d.(items);
       universities :=
         d.(universities)
         ++ [{| University._id := d.(next_id); University.name := N |}];
       next_id := N.succ d.(next_id) |} in
  Registry.add_university_post d (Some user) (Some N)
    = Some (respond (Redirect "/") d1 (Some user))
  /\ Registry.add_university_post d1 (Some user) (Some M)
     = Some (respond (Redirect "/") d1 (Some user)).
Proof.
  intros HN HpN HpM Htrim Heq Htrimmed Hfresh d1. split.
  - unfold Registry.add_university_post. cbn [interpolate].
    rewrite (RegexFacts.compile_anchored N HpN).
    rewrite find_all_false.
    + apply JsFacts.truthy_Some in HN. rewrite HN.
      apply JsFacts.truthy_Some in HN.
      unfold Model.saveNewUniversity, Schema.set_trim. cbn [option_map].
      rewrite Htrim, (ModelFacts.required_nonempty "name" N HN).
      cbn [bind].
      replace (existsb _ d.(universities)) with false; [reflexivity|].
      symmetry. apply not_true_is_false. intro E.
      apply existsb_exists in E. destruct E as [u [Hu E]].
      apply String.eqb_eq in E. apply (Hfresh u Hu).
      unfold Spec.EqualIgnoreCase. now rewrite E.
    + intros u Hu. apply not_true_is_false. intro E.
      rewrite (RegexFacts.test_anchored N _ _ HpN
                 (RegexFacts.compile_anchored N HpN)) in E.
      apply RegexFacts.matchesWholeIgnoreCase_spec in E.
      destruct E as [E|[s0 [E _]]]; [now apply (Hfresh u Hu)|].
      specialize (Htrimmed u Hu). rewrite E in Htrimmed.
      apply JsFacts.trimmed_last in Htrimmed. discriminate.
  - unfold Registry.add_university_post. cbn [interpolate].
    rewrite (RegexFacts.compile_anchored M HpM).
    destruct (find_one_true
                (fun u => Regex.test true
                   (Regex.Seq Regex.Bol
                      (Plain.literal_then M (Regex.Seq Regex.Eol Regex.Empty)))
                   u.(University.name))
                d1.(universities)
                {| University._id := d.(next_id); University.name := N |})
      as [y Hy].
    + subst d1. cbn [universities]. apply in_or_app. right. now left.
    + cbn [University.name].
      rewrite (RegexFacts.test_anchored M _ _ HpM
                 (RegexFacts.compile_anchored M HpM)).
      apply RegexFacts.matchesWholeIgnoreCase_spec. now left.
    + now rewrite Hy.
Qed.

Lemma add_university_plain_name_once_witness :
  Spec.EqualIgnoreCase "Caltech" "CALTECH"
  /\ exists d1 : Database,
       Registry.add_university_post Sample.campus Sample.as_ann
         (Some "Caltech")
       = Some (respond (Redirect "/") d1 Sample.as_ann)
       /\ Registry.add_university_post d1 Sample.as_ann (Some "CALTECH")
          = Some (respond (Redirect "/") d1 Sample.as_ann)
       /\ map University.name d1.(universities) = ["MIT"; "Caltech"].
Proof.
  split; [reflexivity|].
  pose proof (add_university_plain_name_once Sample.campus
                (Registry.sessionOf Sample.ann) "Caltech" "CALTECH"
                ltac:(discriminate) eq_refl eq_refl eq_refl eq_refl) as H.
  cbv zeta in H.
  assert (H1 : forall u, In u Sample.campus.(universities) ->
                 Js.trim u.(University.name) = u.(University.name))
    by (intros u [<-|[]]; reflexivity).
  assert (H2 : forall u, In u Sample.campus.(universities) ->
                 ~ Spec.EqualIgnoreCase u.(University.name) "Caltech")
    by (intros u [<-|[]]; discriminate).
  destruct (H H1 H2) as [Ha Hb].
  eexists. split; [exact Ha|]. split; [exact Hb | reflexivity].
Defined.

End Universities.

(** ** Trimming *)

Module TrimFacts.

Lemma trimEnd_idem (t : string) : Js.trimEnd (Js.trimEnd t) = Js.trimEnd t.
Proof.
  induction t as [|c t IH]; [reflexivity|]. cbn [Js.trimEnd].
  destruct (Js.trimEnd t) as [|b r] eqn:E.
  - destruct (Js.is_space c) eqn:S; [reflexivity|].
    cbn [Js.trimEnd]. now rewrite S.
  - cbn [Js.trimEnd] in *. now rewrite IH.
Qed.

Lemma trimStart_shape (s : string) :
  Js.trimStart s = ""
  \/ exists c t, Js.trimStart s = String c t /\ Js.is_space c = false.
Proof.
  induction s as [|c s IH]; [now left|]. cbn [Js.trimStart].
  destruct (Js.is_space c) eqn:S; [exact IH|]. right. now exists c, s.
Qed.

Lemma trimEnd_keeps_head (c : ascii) (t : string) :
  Js.is_space c = false -> exists t', Js.trimEnd (String c t) = String c t'.
Proof.
  intro S. cbn [Js.trimEnd]. destruct (Js.trimEnd t) as [|b r].
  - rewrite S. now exists "".
  - now exists (String b r).
Qed.

(** Trimming what is trimmed changes nothing. *)
Lemma trim_idem (s : string) : Js.trim (Js.trim s) = Js.trim s.
Proof.
  unfold Js.trim.
  destruct (trimStart_shape s) as [E|[c [t [E S]]]]; rewrite E.
  - reflexivity.
  - destruct (trimEnd_keeps_head c t S) as [t' Et]. rewrite Et.
    cbn [Js.trimStart]. rewrite S, <- Et. apply trimEnd_idem.
Qed.

Lemma trim_is_trimmed (s : string) : Conforms.trimmed (Js.trim s).
Proof. apply trim_idem. Qed.

End TrimFacts.

(** ** Reporting an item *)

Module Reports.

Import JsFacts ModelFacts.

Lemma validateItem_present (p : ItemPaths) (id owner : ObjectId)
  (created updated : Z) (doc : Item.t) :
  Model.validateItem p id owner created updated = Ok doc ->
  Conforms.present doc.(Item.name)
  /\ Conforms.present doc.(Item.description)
  /\ (doc.(Item.status) = "Lost" \/ doc.(Item.status) = "Found")
  /\ Conforms.present doc.(Item.category)
  /\ Conforms.present doc.(Item.university)
  /\ Conforms.present doc.(Item.imageUrl)
  /\ Conforms.present doc.(Item.contactEmail)
  /\ Conforms.present doc.(Item.contactPhone)
  /\ doc.(Item.updatedAt) = updated.
Proof.
  unfold Model.validateItem, Conforms.present. intro H.
  repeat match type of H with
         | bind (Schema.required ?path ?v) _ = _ =>
             let E := fresh "E" in
             destruct (Schema.required path v) eqn:E; cbn [bind] in H;
             [apply required_Ok in E; destruct E as [_ E] | discriminate]
         | bind (Schema.status_enum ?v) _ = _ =>
             let E := fresh "E" in
             destruct (Schema.status_enum v) eqn:E; cbn [bind] in H;
             [|discriminate]
         end.
  injection H as <-. cbn.
  unfold Schema.status_enum in *.
  match goal with
  | E : (if ?c then _ else _) = Ok _ |- _ =>
      destruct c eqn:C; [injection E as <- | discriminate]
  end.
  apply orb_true_iff in C. rewrite !String.eqb_eq in C.
  repeat split; assumption.
Qed.

(** A document that passed validation conforms to the schema when its four
    trimmed paths were set through the setter. *)
Lemma validated_conforms (p : ItemPaths) (id owner : ObjectId)
  (created updated : Z) (doc : Item.t) (n de c u : option string) :
  p.(p_name) = Schema.set_trim n ->
  p.(p_description) = Schema.set_trim de ->
  p.(p_category) = Schema.set_trim c ->
  p.(p_university) = Schema.set_trim u ->
  Model.validateItem p id owner created updated = Ok doc ->
  Conforms.item doc.
Proof.
  intros En Ed Ec Eu V.
  destruct (validateItem_present _ _ _ _ _ _ V)
    as (P1 & P2 & P3 & P4 & P5 & P6 & P7 & P8 & _).
  destruct (Posts.validateItem_Ok _ _ _ _ _ _ V)
    as (V1 & V2 & _ & V4 & V5 & _).
  rewrite En in V1. rewrite Ed in V2. rewrite Ec in V4. rewrite Eu in V5.
  assert (T : forall (raw : option string) (v : string),
             Schema.set_trim raw = Some v -> Conforms.trimmed v).
  { intros [r|] v E; [|discriminate]. injection E as <-.
    apply TrimFacts.trim_is_trimmed. }
  unfold Conforms.item.
  repeat split; try assumption; eapply T; eassumption.
Qed.

(** X5.  What a request to report an item does, whatever it carries.
    Either it is answered with the 500 response and the database is as
    before; that is what happens when no image file came with it.  Or an
    image was uploaded and exactly one item is appended: it has a fresh id,
    belongs to the requester, carries the [secure_url] of the upload and
    the request time as both timestamps, holds the form's values (four of
    them trimmed), conforms to the schema, and the response redirects to
    the listing of the submitted university, percent-encoded. *)
Theorem report_appends_one_owned_item (env : Env) (d : Database)
  (user : SessionUser.t) (body : ItemForm) (file : option string) :
  let o := Routes.report_post env d (Some user) body file in
  (o = respond (Send 500 "Error submitting report.") d (Some user))
  \/ (exists (buffer url : string) (doc : Item.t),
        file = Some buffer
        /\ env.(upload_stream) buffer = Some url
        /\ o = respond
                 (Redirect ("/items?university="
                            ++ Uri.encodeURIComponent
                                 (interpolate body.(f_university))))
                 (Routes.with_new_item d doc) (Some user)
        /\ doc.(Item._id) = d.(next_id)
        /\ doc.(Item.reportedBy) = user.(SessionUser.id)
        /\ doc.(Item.createdAt) = env.(now)
        /\ doc.(Item.updatedAt) = env.(now)
        /\ doc.(Item.imageUrl) = url
        /\ option_map Js.trim body.(f_itemName) = Some doc.(Item.name)
        /\ option_map Js.trim body.(f_description)
           = Some doc.(Item.description)
        /\ body.(f_status) = Some doc.(Item.status)
        /\ option_map Js.trim body.(f_category) = Some doc.(Item.category)
        /\ option_map Js.trim body.(f_university)
           = Some doc.(Item.university)
        /\ body.(f_contactEmail) = Some doc.(Item.contactEmail)
        /\ body.(f_contactPhone) = Some doc.(Item.contactPhone)
        /\ Conforms.item doc).
Proof.
  cbv zeta. unfold Routes.report_post, Routes.uploadToCloudinary.
  destruct file as [buffer|]; [|now left].
  destruct (env.(upload_stream) buffer) as [url|] eqn:U; [|now left].
  cbn [bind].
  destruct (Model.validateItem _ _ _ _ _) as [doc|] eqn:V; [|now left].
  right. exists buffer, url, doc. cbn [bind try_catch].
  pose proof (validated_conforms (Routes.newItemPaths body url) _ _ _ _ doc
                body.(f_itemName) body.(f_description) body.(f_category)
                body.(f_university) eq_refl eq_refl eq_refl eq_refl V) as C.
  destruct (validateItem_present _ _ _ _ _ _ V)
    as (_ & _ & _ & _ & _ & _ & _ & _ & Hup).
  destruct (Posts.validateItem_Ok _ _ _ _ _ _ V)
    as (V1 & V2 & V3 & V4 & V5 & V6 & V7 & V8 & V9 & V10 & V11).
  cbn in V1, V2, V3, V4, V5, V6, V7, V8. unfold Schema.set_trim in *.
  injection V6 as V6.
  repeat match goal with |- _ /\ _ => split end;
    try assumption; try reflexivity; now symmetry.
Qed.

End Reports.

(** ** A user's own posts *)

Module OwnPosts.

Lemma ownedBy_iff (owner : ObjectId) (i : Item.t) :
  Routes.ownedBy owner i = true <-> i.(Item.reportedBy) = owner.
Proof. unfold Routes.ownedBy. apply N.eqb_eq. Qed.

(** X6.  For a request with a session the posts page shows exactly the
    stored items whose [reportedBy] is the session's user, each as often as
    it is stored, newest first; no item of another user is on it. *)
Theorem my_posts_lists_exactly_own_items (d : Database)
  (user : SessionUser.t) :
  exists found : list Item.t,
    Routes.my_posts_get d (Some user) = Shows (P_my_posts found)
    /\ Permutation found
         (filter (Routes.ownedBy user.(SessionUser.id)) d.(items))
    /\ (forall i, In i found <->
          In i d.(items) /\ i.(Item.reportedBy) = user.(SessionUser.id))
    /\ Spec.NewestFirst found.
Proof.
  eexists. split; [reflexivity|].
  pose proof (Browse.sortNewestFirst_perm
                (filter (Routes.ownedBy user.(SessionUser.id)) d.(items)))
    as P.
  split; [exact P|]. split.
  - intro i. rewrite <- ownedBy_iff, <- filter_In.
    split; apply Permutation_in; [exact P | now symmetry].
  - apply Browse.sortNewestFirst_sorted.
Qed.

End OwnPosts.

(** ** What a user's requests leave alone *)

Module Frame.

Import Conforms.

Lemma of_others_snoc (owner : ObjectId) (l : list Item.t) (doc : Item.t) :
  doc.(Item.reportedBy) = owner ->
  of_others owner (l ++ [doc]) = of_others owner l.
Proof.
  intro H. unfold of_others. rewrite filter_app. cbn [filter].
  unfold Routes.ownedBy. rewrite H, N.eqb_refl. cbn [negb].
  apply app_nil_r.
Qed.

Lemma of_others_replace (owner id : ObjectId) (l : list Item.t)
  (item doc : Item.t) :
  Model.findItemById id l = Some item ->
  item.(Item.reportedBy) = owner -> doc.(Item.reportedBy) = owner ->
  doc.(Item._id) = id ->
  of_others owner (Model.replaceItem doc l) = of_others owner l.
Proof.
  unfold Model.findItemById, of_others, Routes.ownedBy.
  intros Hfind Hitem Hdoc Hid. subst id.
  induction l as [|i l IH]; [reflexivity|].
  cbn [find Model.replaceItem] in *.
  destruct (N.eqb i.(Item._id) doc.(Item._id)) eqn:E.
  - injection Hfind as ->. cbn [filter].
    now rewrite Hitem, Hdoc, N.eqb_refl.
  - cbn [filter]. now rewrite (IH Hfind).
Qed.

Lemma of_others_delete (owner id : ObjectId) (l : list Item.t)
  (item : Item.t) :
  Model.findItemById id l = Some item ->
  item.(Item.reportedBy) = owner ->
  of_others owner (Model.deleteItemById id l) = of_others owner l.
Proof.
  unfold Model.findItemById, of_others, Routes.ownedBy.
  intros Hfind Hitem.
  induction l as [|i l IH]; [reflexivity|].
  cbn [find Model.deleteItemById] in *.
  destruct (N.eqb i.(Item._id) id) eqn:E.
  - injection Hfind as ->. cbn [filter].
    now rewrite Hitem, N.eqb_refl.
  - cbn [filter]. now rewrite (IH Hfind).
Qed.

Lemma saveItem_identity (env : Env) (item : Item.t) (p : ItemPaths)
  (saved : Item.t) :
  Registry.saveItem env item p = Ok saved ->
  saved.(Item._id) = item.(Item._id)
  /\ saved.(Item.reportedBy) = item.(Item.reportedBy)
  /\ saved.(Item.createdAt) = item.(Item.createdAt)
  /\ (saved = item \/ saved.(Item.updatedAt) = env.(now)).
Proof.
  unfold Registry.saveItem. intro H.
  destruct (Model.validateItem _ _ _ _ _) as [doc|] eqn:V; cbn [bind] in H;
    [|discriminate].
  destruct (Item.same_paths doc item); injection H as <-.
  - repeat split; now left.
  - destruct (Posts.validateItem_Ok _ _ _ _ _ _ V)
      as (_ & _ & _ & _ & _ & _ & _ & _ & V9 & V10 & V11).
    destruct (Reports.validateItem_present _ _ _ _ _ _ V)
      as (_ & _ & _ & _ & _ & _ & _ & _ & Hup).
    repeat split; try assumption. now right.
Qed.

(** What an update request does to the item collection, whatever it
    carries: nothing, or the found item, which the requester owns, is
    replaced by a saved document. *)
Lemma update_cases (env : Env) (d : Database) (user : SessionUser.t)
  (id : option ObjectId) (body : ItemForm) (file : option string) :
  let o := Registry.item_update_post env d (Some user) id body file in
  o.(db) = d
  \/ exists (i : ObjectId) (item saved : Item.t) (p : ItemPaths),
       id = Some i
       /\ Model.findItemById i d.(items) = Some item
       /\ item.(Item.reportedBy) = user.(SessionUser.id)
       /\ Registry.saveItem env item p = Ok saved
       /\ p.(p_name) = Schema.set_trim body.(f_itemName)
       /\ p.(p_description) = Schema.set_trim body.(f_description)
       /\ p.(p_category) = Schema.set_trim body.(f_category)
       /\ p.(p_university) = Schema.set_trim body.(f_university)
       /\ o.(db) = with_items d (Model.replaceItem saved d.(items)).
Proof.
  cbv zeta. unfold Registry.item_update_post.
  destruct id as [i|]; [|now left]. cbn [castObjectId bind].
  destruct (Model.findItemById i d.(items)) as [item|] eqn:F; [|now left].
  destruct (N.eqb item.(Item.reportedBy) user.(SessionUser.id)) eqn:O;
    [|now left].
  apply N.eqb_eq in O. cbn [negb].
  destruct file as [buffer|].
  - destruct (env.(upload_stream) buffer) as [url|]; [|now left].
    cbn [bind].
    destruct (Registry.saveItem env item _) as [saved|] eqn:S; [|now left].
    right. exists i, item, saved,
      (Registry.setImageUrl (Registry.assignForm item body) url).
    repeat split; assumption.
  - cbn [bind].
    destruct (Registry.saveItem env item _) as [saved|] eqn:S; [|now left].
    right. exists i, item, saved, (Registry.assignForm item body).
    repeat split; assumption.
Qed.

(** What a delete request does to the item collection. *)
Lemma delete_cases (d : Database) (user : SessionUser.t)
  (id : option ObjectId) :
  let o := Registry.item_delete_post d (Some user) id in
  o.(db) = d
  \/ exists (i : ObjectId) (item : Item.t),
       id = Some i
       /\ Model.findItemById i d.(items) = Some item
       /\ item.(Item.reportedBy) = user.(SessionUser.id)
       /\ o.(db) = with_items d (Model.deleteItemById i d.(items)).
Proof.
  cbv zeta. unfold Registry.item_delete_post.
  destruct id as [i|]; [|now left]. cbn [castObjectId bind].
  destruct (Model.findItemById i d.(items)) as [item|] eqn:F; [|now left].
  destruct (N.eqb item.(Item.reportedBy) user.(SessionUser.id)) eqn:O;
    [|now left].
  apply N.eqb_eq in O. right. exists i, item. repeat split; assumption.
Qed.

(** What a report request does to the item collection. *)
Lemma report_cases (env : Env) (d : Database) (user : SessionUser.t)
  (body : ItemForm) (file : option string) :
  let o := Routes.report_post env d (Some user) body file in
  o = respond (Send 500 "Error submitting report.") d (Some user)
  \/ exists (url : string) (doc : Item.t),
       Model.validateItem (Routes.newItemPaths body url) d.(next_id)
         user.(SessionUser.id) env.(now) env.(now) = Ok doc
       /\ o = respond
                (Redirect ("/items?university="
                           ++ Uri.encodeURIComponent
                                (interpolate body.(f_university))))
                (Routes.with_new_item d doc) (Some user).
Proof.
  cbv zeta. unfold Routes.report_post, Routes.uploadToCloudinary.
  destruct file as [buffer|]; [|now left].
  destruct (env.(upload_stream) buffer) as [url|]; [|now left].
  cbn [bind].
  destruct (Model.validateItem _ _ _ _ _) as [doc|] eqn:V; [|now left].
  right. exists url, doc. now split.
Qed.

(** X7.  Whatever a user sends to the report, update and delete routes,
    the stored items of every other user stay as they are: the same
    documents in the same order.  No request creates, changes or removes
    an item on another user's behalf. *)
Theorem requests_leave_others_items_alone (env : Env) (d : Database)
  (user : SessionUser.t) (id : option ObjectId) (body : ItemForm)
  (file : option string) :
  let mine := user.(SessionUser.id) in
  of_others mine
    (Routes.report_post env d (Some user) body file).(db).(items)
  = of_others mine d.(items)
  /\ of_others mine
       (Registry.item_update_post env d (Some user) id body file).(db).(items)
     = of_others mine d.(items)
  /\ of_others mine (Registry.item_delete_post d (Some user) id).(db).(items)
     = of_others mine d.(items).
Proof.
  cbv zeta. split; [|split].
  - destruct (report_cases env d user body file) as [E|[url [doc [V E]]]];
      rewrite E; [reflexivity|].
    cbn [respond db Routes.with_new_item items].
    apply of_others_snoc.
    now destruct (Posts.validateItem_Ok _ _ _ _ _ _ V)
      as (_ & _ & _ & _ & _ & _ & _ & _ & _ & V10 & _).
  - destruct (update_cases env d user id body file)
      as [E|(i & item & saved & p & _ & F & O & S & _ & _ & _ & _ & E)];
      rewrite E; [reflexivity|].
    cbn [with_items items].
    destruct (saveItem_identity _ _ _ _ S) as (Sid & Sown & _).
    destruct (Posts.findItemById_Some _ _ _ F) as [_ Hid].
    apply (of_others_replace _ i _ item); congruence.
  - destruct (delete_cases d user id) as [E|(i & item & _ & F & O & E)];
      rewrite E; [reflexivity|].
    cbn [with_items items]. now apply (of_others_delete _ i _ item).
Qed.

End Frame.

(** ** Stored items conform to the schema *)

Module Validity.

Lemma Forall_replaceItem (P : Item.t -> Prop) (doc : Item.t)
  (l : list Item.t) :
  Forall P l -> P doc -> Forall P (Model.replaceItem doc l).
Proof.
  intros H Hdoc. induction H as [|i l Hi Hl IH]; cbn [Model.replaceItem];
    [constructor|].
  destruct (N.eqb i.(Item._id) doc.(Item._id)); now constructor.
Qed.

Lemma Forall_deleteItemById (P : Item.t -> Prop) (id : ObjectId)
  (l : list Item.t) :
  Forall P l -> Forall P (Model.deleteItemById id l).
Proof.
  intro H. induction H as [|i l Hi Hl IH]; cbn [Model.deleteItemById];
    [constructor|].
  destruct (N.eqb i.(Item._id) id); [exact Hl | now constructor].
Qed.

Lemma saveItem_conforms (env : Env) (item : Item.t) (p : ItemPaths)
  (saved : Item.t) (n de c u : option string) :
  Conforms.item item ->
  p.(p_name) = Schema.set_trim n ->
  p.(p_description) = Schema.set_trim de ->
  p.(p_category) = Schema.set_trim c ->
  p.(p_university) = Schema.set_trim u ->
  Registry.saveItem env item p = Ok saved -> Conforms.item saved.
Proof.
  intros Hitem En Ed Ec Eu H. unfold Registry.saveItem in H.
  destruct (Model.validateItem _ _ _ _ _) as [doc|] eqn:V; cbn [bind] in H;
    [|discriminate].
  destruct (Item.same_paths doc item); injection H as <-; [exact Hitem|].
  exact (Reports.validated_conforms _ _ _ _ _ _ n de c u En Ed Ec Eu V).
Qed.

(** X8.  Conformance to the item schema is an invariant of the report,
    update and delete routes.  When every stored item has its required
    fields present, its trimmed fields without white space around them and
    a status that is Lost or Found, the same holds after any request to
    these routes, whatever the request carries and whether or not it is
    refused. *)
Theorem stored_items_stay_valid (env : Env) (d : Database)
  (user : SessionUser.t) (id : option ObjectId) (body : ItemForm)
  (file : option string) :
  Forall Conforms.item d.(items) ->
  Forall Conforms.item
    (Routes.report_post env d (Some user) body file).(db).(items)
  /\ Forall Conforms.item
       (Registry.item_update_post env d (Some user) id body file).(db).(items)
  /\ Forall Conforms.item
       (Registry.item_delete_post d (Some user) id).(db).(items).
Proof.
  intro H. split; [|split].
  - destruct (Frame.report_cases env d user body file)
      as [E|[url [doc [V E]]]]; rewrite E; [exact H|].
    cbn [respond db Routes.with_new_item items].
    apply Forall_app. split; [exact H|]. constructor; [|constructor].
    exact (Reports.validated_conforms (Routes.newItemPaths body url) _ _ _ _
             doc body.(f_itemName) body.(f_description) body.(f_category)
             body.(f_university) eq_refl eq_refl eq_refl eq_refl V).
  - destruct (Frame.update_cases env d user id body file)
      as [E|(i & item & saved & p & _ & F & _ & S & En & Ed & Ec & Eu & E)];
      rewrite E; [exact H|].
    cbn [with_items items]. apply Forall_replaceItem; [exact H|].
    destruct (Posts.findItemById_Some _ _ _ F) as [Hin _].
    rewrite Forall_forall in H.
    exact (saveItem_conforms env item p saved _ _ _ _ (H item Hin)
             En Ed Ec Eu S).
  - destruct (Frame.delete_cases d user id) as [E|(i & item & _ & _ & _ & E)];
      rewrite E; [exact H|].
    cbn [with_items items]. now apply Forall_deleteItemById.
Qed.

Lemma stored_items_stay_valid_witness :
  Forall Conforms.item Sample.campus.(items)
  /\ Forall Conforms.item
       (Routes.report_post Fixture.host Sample.campus Sample.as_bob
          Fixture.umbrella_form (Some "umbrella.png")).(db).(items).
Proof.
  assert (H : Forall Conforms.item Sample.campus.(items)).
  { repeat apply Forall_cons; try apply Forall_nil;
      unfold Conforms.item, Conforms.present, Conforms.trimmed;
      repeat split; try discriminate; try reflexivity;
      first [left; reflexivity | right; reflexivity]. }
  split; [exact H|].
  exact (proj1 (stored_items_stay_valid Fixture.host Sample.campus
                  (Registry.sessionOf Sample.bob) None Fixture.umbrella_form
                  (Some "umbrella.png") H)).
Defined.

Lemma replaceItem_Forall2 (R : Item.t -> Item.t -> Prop) (doc item : Item.t)
  (l : list Item.t) :
  (forall j, R j j) ->
  Model.findItemById doc.(Item._id) l = Some item -> R item doc ->
  Forall2 R l (Model.replaceItem doc l).
Proof.
  intros Hrefl Hfind Hdoc.
  assert (Hall : forall l0 : list Item.t, Forall2 R l0 l0)
    by (intro l0; induction l0; constructor; auto).
  unfold Model.findItemById in Hfind.
  induction l as [|i l IH]; cbn [Model.replaceItem find] in *;
    [constructor|].
  destruct (N.eqb i.(Item._id) doc.(Item._id)) eqn:E.
  - injection Hfind as ->. constructor; [exact Hdoc | apply Hall].
  - constructor; [apply Hrefl | now apply IH].
Qed.

(** X9.  What an update request never does, whatever it carries: it adds
    no item, removes none and reorders none, and it changes no item's id,
    owner or creation time.  An item that comes out different is the item
    with the requested id, belongs to the requester, and has the request
    time as its [updatedAt].  Users and universities are not touched. *)
Theorem update_keeps_identity (env : Env) (d : Database)
  (user : SessionUser.t) (id : option ObjectId) (body : ItemForm)
  (file : option string) :
  let o := Registry.item_update_post env d (Some user) id body file in
  Forall2
    (fun before after : Item.t =>
       after.(Item._id) = before.(Item._id)
       /\ after.(Item.reportedBy) = before.(Item.reportedBy)
       /\ after.(Item.createdAt) = before.(Item.createdAt)
       /\ (after = before
           \/ (id = Some before.(Item._id)
               /\ before.(Item.reportedBy) = user.(SessionUser.id)
               /\ after.(Item.updatedAt) = env.(now))))
    d.(items) o.(db).(items)
  /\ o.(db).(users) = d.(users)
  /\ o.(db).(universities) = d.(universities)
  /\ o.(db).(next_id) = d.(next_id).
Proof.
  cbv zeta.
  set (R := fun before after : Item.t =>
       after.(Item._id) = before.(Item._id)
       /\ after.(Item.reportedBy) = before.(Item.reportedBy)
       /\ after.(Item.createdAt) = before.(Item.createdAt)
       /\ (after = before
           \/ (id = Some before.(Item._id)
               /\ before.(Item.reportedBy) = user.(SessionUser.id)
               /\ after.(Item.updatedAt) = env.(now)))).
  assert (Hrefl : forall j, R j j) by (intro j; repeat split; now left).
  destruct (Frame.update_cases env d user id body file)
    as [E|(i & item & saved & p & Eid & F & O & S & _ & _ & _ & _ & E)];
    rewrite E.
  - repeat split. induction d.(items); constructor; auto.
  - cbn [with_items items users universities next_id]. repeat split.
    destruct (Frame.saveItem_identity _ _ _ _ S) as (Sid & Sown & Screated & Sup).
    destruct (Posts.findItemById_Some _ _ _ F) as [_ Hid].
    apply (replaceItem_Forall2 R saved item); [exact Hrefl | | ].
    + now rewrite Sid, Hid.
    + unfold R. repeat split; try assumption.
      destruct Sup as [->|Sup]; [now left|]. right.
      repeat split; try assumption. now rewrite Hid.
Qed.

End Validity.

(** ** From the report to the listings *)

Module Journey.

(** X10.  A reported item is found again.  When a report is not answered
    with the error response, the item it stored is on the reporter's posts
    page, and it is in the listing that any logged-in user gets for the
    submitted university and status together with any non-empty search
    string without syntax characters that the stored name contains, letter
    case aside. *)
Theorem reported_item_is_found (env : Env) (d : Database)
  (user : SessionUser.t) (body : ItemForm) (file : option string) :
  let o := Routes.report_post env d (Some user) body file in
  o.(response) <> Send 500 "Error submitting report." ->
  exists doc : Item.t,
    o.(db).(items) = (d.(items) ++ [doc])%list
    /\ (exists mine : list Item.t,
          Routes.my_posts_get o.(db) (Some user) = Shows (P_my_posts mine)
          /\ In doc mine)
    /\ forall (viewer : SessionUser.t) (p : string),
         Plain.is_plain p = true -> p <> "" ->
         Spec.ContainsIgnoreCase doc.(Item.name) p ->
         exists (found : list Item.t) (u : string),
           body.(f_university) = Some u
           /\ Registry.items_get o.(db) (Some viewer)
                {| q_university := body.(f_university);
                   q_status := body.(f_status); q_search := Some p |}
              = Some (respond
                        (Render (V_items found u body.(f_status) (Some p)))
                        o.(db) (Some viewer))
           /\ In doc found.
Proof.
  cbv zeta. intro Hok.
  destruct (Frame.report_cases env d user body file)
    as [E|[url [doc [V E]]]]; [now rewrite E in Hok|].
  rewrite E. cbn [respond db Routes.with_new_item items].
  exists doc. split; [reflexivity|].
  destruct (Posts.validateItem_Ok _ _ _ _ _ _ V)
    as (_ & _ & V3 & _ & V5 & _ & _ & _ & _ & V10 & _).
  destruct (Reports.validateItem_present _ _ _ _ _ _ V)
    as (_ & _ & _ & _ & P5 & _).
  cbn in V3, V5. split.
  - eexists. split; [reflexivity|].
    apply (Permutation_in (l := filter (Routes.ownedBy user.(SessionUser.id))
                                  (d.(items) ++ [doc]))).
    + symmetry. apply Browse.sortNewestFirst_perm.
    + apply filter_In. split; [apply in_or_app; right; now left|].
      now apply OwnPosts.ownedBy_iff.
  - intros viewer p Hplain Hp Hcontains.
    destruct body.(f_university) as [u|] eqn:Eu; [|discriminate].
    cbn in V5. injection V5 as V5.
    assert (Hu : u <> "").
    { intros ->. apply P5. now rewrite <- V5. }
    destruct (Browse.renderItems_Listing (Routes.with_new_item d doc)
                (Some viewer) u
                {| q_university := Some u; q_status := body.(f_status);
                   q_search := Some p |} (Some (Plain.literal p)))
      as [found [R L]].
    exists found, u. split; [reflexivity|]. split.
    + unfold Registry.items_get, Registry.findItems.
      cbn [q_university q_search].
      destruct u as [|c u]; [congruence|].
      destruct p as [|c' p]; [congruence|].
      rewrite (RegexFacts.compile_plain _ Hplain). now rewrite R.
    + apply (Browse.Listing_In _ _ _ _ _ L). cbn [q_status] in *.
      split; [cbn; apply in_or_app; right; now left|].
      split; [now symmetry|]. split.
      * intros st Est _. rewrite Est in V3. now injection V3.
      * intros re Ere. injection Ere as <-.
        apply (RegexFacts.plain_search_is_containment p _ _ Hplain
                 (RegexFacts.compile_plain p Hplain)).
        exact Hcontains.
Qed.

Lemma reported_item_is_found_witness :
  (Routes.report_post Fixture.host Sample.campus Sample.as_bob
     Fixture.umbrella_form (Some "umbrella.png")).(response)
  <> Send 500 "Error submitting report."
  /\ exists doc : Item.t,
       (Routes.report_post Fixture.host Sample.campus Sample.as_bob
          Fixture.umbrella_form (Some "umbrella.png")).(db).(items)
       = [Sample.bottle; Sample.keys; doc]
       /\ doc.(Item.name) = "Green Umbrella".
Proof.
  split; [discriminate|].
  destruct (reported_item_is_found Fixture.host Sample.campus
              (Registry.sessionOf Sample.bob) Fixture.umbrella_form
              (Some "umbrella.png") ltac:(discriminate))
    as (doc & E & _ & _).
  exists doc. split; [exact E|].
  cbn in E. now injection E as <-.
Defined.

End Journey.

(** ** The registry under [POST /add-university] *)

Module Registrar.

Import JsFacts ModelFacts.

Lemma saveNewUniversity_Ok (name : option string) (d d' : Database) :
  Model.saveNewUniversity name d = Ok d' ->
  exists raw : string,
    name = Some raw /\ Js.trim raw <> ""
    /\ ~ In (Js.trim raw) (map University.name d.(universities))
    /\ d' = {| users := d.(users); items := d.(items);
               universities :=
                 d.(universities)
                 ++ [{| University._id := d.(next_id);
                        University.name := Js.trim raw |}];
               next_id := N.succ d.(next_id) |}.
Proof.
  unfold Model.saveNewUniversity. intro H.
  destruct (Schema.required "name" (Schema.set_trim name)) as [n|] eqn:R;
    cbn [bind] in H; [|discriminate].
  apply required_Ok in R. destruct R as [R Hn].
  destruct name as [raw|]; [|discriminate]. cbn in R. injection R as <-.
  destruct (existsb _ d.(universities)) eqn:E; [discriminate|].
  injection H as <-. exists raw. repeat split; try assumption.
  intro Hin. apply in_map_iff in Hin. destruct Hin as [u [Hu Hin]].
  assert (T : existsb (fun u => String.eqb u.(University.name) (Js.trim raw))
                d.(universities) = true).
  { apply existsb_exists. exists u. split; [exact Hin|].
    now apply String.eqb_eq. }
  congruence.
Qed.

(** What a request to add a university does to the database. *)
Lemma add_cases (d : Database) (s : Session) (name : option string)
  (o : Outcome) :
  Registry.add_university_post d s name = Some o ->
  o.(session) = s
  /\ (o.(response) = Redirect "/" \/ o.(response) = Redirect "/login")
  /\ (o.(db) = d
      \/ exists raw : string,
           name = Some raw /\ Js.trim raw <> ""
           /\ ~ In (Js.trim raw) (map University.name d.(universities))
           /\ o.(db)
              = {| users := d.(users); items := d.(items);
                   universities :=
                     d.(universities)
                     ++ [{| University._id := d.(next_id);
                            University.name := Js.trim raw |}];
                   next_id := N.succ d.(next_id) |}).
Proof.
  unfold Registry.add_university_post. intro H.
  destruct s as [user|]; [|injection H as <-; cbn; auto].
  destruct (Regex.compile _) as [re| |]; [| |discriminate];
    injection H as <-; [|cbn; auto].
  destruct (find _ d.(universities)); [cbn; auto|].
  destruct (Js.truthy name); [|cbn; auto].
  destruct (Model.saveNewUniversity name d) as [d'|] eqn:S;
    cbn [bind try_catch respond session response db]; [|auto].
  split; [reflexivity|]. split; [now left|]. right.
  exact (saveNewUniversity_Ok _ _ _ S).
Qed.

(** X11.  What adding a university can do.  The route's answer is a
    redirect; users and items are not touched; every registry entry stays
    where it was, and at most one entry is appended, whose name is the
    submitted one with the white space around it trimmed.  A registry whose
    names are non-empty, trimmed and pairwise different stays such a
    registry.  For a submitted name without syntax characters the handler
    is within the embedded fragment. *)
Theorem add_university_extends_registry (d : Database) (s : Session)
  (name : option string) :
  (Plain.is_plain (interpolate name) = true ->
   Registry.add_university_post d s name <> None)
  /\ forall o : Outcome,
       Registry.add_university_post d s name = Some o ->
       status_code o.(response) = 302%N
       /\ o.(db).(users) = d.(users) /\ o.(db).(items) = d.(items)
       /\ (o.(db).(universities) = d.(universities)
           \/ exists raw : string,
                name = Some raw
                /\ o.(db).(universities)
                   = (d.(universities)
                      ++ [{| University._id := d.(next_id);
                             University.name := Js.trim raw |}])%list)
       /\ (Conforms.registry d.(universities) ->
           Conforms.registry o.(db).(universities)).
Proof.
  split.
  - intro Hp. unfold Registry.add_university_post.
    destruct s; [|discriminate].
    now rewrite (RegexFacts.compile_anchored _ Hp).
  - intros o H. destruct (add_cases d s name o H) as (_ & Hr & Hd).
    split; [destruct Hr as [-> | ->]; reflexivity|].
    destruct Hd as [->|(raw & Hname & Hne & Hnew & ->)].
    + split; [reflexivity|]. split; [reflexivity|]. split; [now left|].
      auto.
    + cbn [users items universities].
      split; [reflexivity|]. split; [reflexivity|].
      split; [right; now exists raw|].
      intros [Hall ND]. split.
      * apply Forall_app. split; [exact Hall|].
        constructor; [|constructor]. cbn. split; [exact Hne|].
        apply TrimFacts.trim_is_trimmed.
      * rewrite map_app. cbn [map University.name].
        now apply Accounts.NoDup_snoc.
Qed.

Lemma add_university_extends_registry_witness :
  Plain.is_plain "Caltech" = true
  /\ Conforms.registry Sample.campus.(universities)
  /\ exists o : Outcome,
       Registry.add_university_post Sample.campus Sample.as_ann
         (Some " Caltech ") = Some o
       /\ map University.name o.(db).(universities) = ["MIT"; "Caltech"]
       /\ Conforms.registry o.(db).(universities).
Proof.
  split; [reflexivity|].
  assert (R : Conforms.registry Sample.campus.(universities)).
  { split.
    - repeat constructor. discriminate.
    - repeat constructor. intros []. }
  split; [exact R|].
  eexists. split; [reflexivity|]. split; [reflexivity|].
  exact (proj2 (proj2 (proj2 (proj2
           (proj2 (add_university_extends_registry Sample.campus
                     Sample.as_ann (Some " Caltech ")) _ eq_refl)))) R).
Defined.

(** X12.  Adding the same name again changes nothing.  For every request
    whose existence check lies within the embedded fragment of regular
    expressions (the handler's model then returns an outcome; names without
    syntax characters are such names, and so is C+), a second request with
    the same text gets the same answer and leaves the database as the
    first request left it.  Nothing is said of a name whose pattern is
    outside the fragment. *)
Theorem add_university_twice_is_once (d : Database) (s : Session)
  (name : option string) (o : Outcome) :
  Registry.add_university_post d s name = Some o ->
  Registry.add_university_post o.(db) s name
  = Some (respond o.(response) o.(db) s).
Proof.
  unfold Registry.add_university_post. intro H.
  destruct s as [user|]; [|now injection H as <-].
  destruct (Regex.compile _) as [re| |]; [| |discriminate];
    injection H as <-; [|reflexivity].
  destruct (find _ d.(universities)) as [u|] eqn:F.
  - cbn [bind try_catch respond db response]. now rewrite ?F.
  - destruct (Js.truthy name) eqn:T.
    + destruct (Model.saveNewUniversity name d) as [d'|] eqn:S;
        cbn [bind try_catch respond db response].
      * destruct (saveNewUniversity_Ok _ _ _ S)
          as (raw & -> & Hne & Hnew & ->).
        cbn [universities].
        destruct (find _ (d.(universities) ++ _)); [reflexivity|].
        rewrite ?T. unfold Model.saveNewUniversity, Schema.set_trim.
        cbn [option_map universities].
        rewrite (required_nonempty "name" _ Hne). cbn [bind].
        rewrite existsb_app. cbn [existsb University.name].
        now rewrite String.eqb_refl, orb_true_r.
      * now rewrite ?F, ?T, ?S.
    + cbn [bind try_catch respond db response]. now rewrite ?F, ?T.
Qed.

Lemma add_university_twice_is_once_witness :
  exists o : Outcome,
    Registry.add_university_post Sample.campus Sample.as_ann (Some "C+")
    = Some o
    /\ Registry.add_university_post o.(db) Sample.as_ann (Some "C+")
       = Some (respond (Redirect "/") o.(db) Sample.as_ann)
    /\ map University.name o.(db).(universities) = ["MIT"; "C+"].
Proof.
  eexists. split; [reflexivity|]. split; [|reflexivity].
  exact (add_university_twice_is_once Sample.campus Sample.as_ann (Some "C+")
           _ eq_refl).
Defined.

End Registrar.

(** ** The university selector *)

Module Selector.

Lemma compare_Lt_trans (a b c : string) :
  String.compare a b = Lt -> String.compare b c = Lt ->
  String.compare a c = Lt.
Proof.
  revert b c. induction a as [|x a IH]; intros [|y b] [|z c];
    cbn [String.compare]; try discriminate; try reflexivity.
  change (Ascii.compare x y) with (N.compare (N_of_ascii x) (N_of_ascii y)).
  change (Ascii.compare y z) with (N.compare (N_of_ascii y) (N_of_ascii z)).
  change (Ascii.compare x z) with (N.compare (N_of_ascii x) (N_of_ascii z)).
  destruct (N.compare_spec (N_of_ascii x) (N_of_ascii y)) as [E1|L1|G1];
  destruct (N.compare_spec (N_of_ascii y) (N_of_ascii z)) as [E2|L2|G2];
    try discriminate; intros H1 H2.
  - rewrite E1, E2, N.compare_refl. now apply (IH b).
  - rewrite E1. apply N.compare_lt_iff in L2. now rewrite L2.
  - rewrite <- E2. apply N.compare_lt_iff in L1. now rewrite L1.
  - assert (L : (N_of_ascii x < N_of_ascii z)%N) by lia.
    apply N.compare_lt_iff in L. now rewrite L.
Qed.

Lemma leb_trans (a b c : string) :
  String.leb a b = true -> String.leb b c = true -> String.leb a c = true.
Proof.
  intros H1 H2.
  destruct (String.compare a b) eqn:E1.
  - apply String.compare_eq_iff in E1. now subst.
  - destruct (String.compare b c) eqn:E2.
    + apply String.compare_eq_iff in E2. now subst.
    + unfold String.leb. now rewrite (compare_Lt_trans a b c E1 E2).
    + unfold String.leb in H2. now rewrite E2 in H2.
  - unfold String.leb in H1. now rewrite E1 in H1.
Qed.

Lemma insertByName_perm (x : University.t) (l : list University.t) :
  Permutation (Routes.insertByName x l) (x :: l).
Proof.
  induction l as [|y l IH]; cbn [Routes.insertByName]; [reflexivity|].
  destruct (String.leb _ _); [reflexivity|].
  rewrite IH. apply perm_swap.
Qed.

Lemma sortByName_perm (l : list University.t) :
  Permutation (Routes.sortByName l) l.
Proof.
  induction l as [|x l IH]; cbn; [reflexivity|].
  rewrite insertByName_perm. now apply perm_skip.
Qed.

Lemma insertByName_sorted (x : University.t) (l : list University.t) :
  Conforms.SortedByName l -> Conforms.SortedByName (Routes.insertByName x l).
Proof.
  unfold Conforms.SortedByName.
  induction l as [|y l IH]; cbn [Routes.insertByName]; intro S.
  - constructor; constructor.
  - inversion S as [|? ? S' Hall]; subst.
    destruct (String.leb x.(University.name) y.(University.name)) eqn:E.
    + constructor; [exact S|]. constructor; [exact E|].
      eapply Forall_impl; [|exact Hall]. cbn. intros z Hz.
      now apply (leb_trans _ y.(University.name)).
    + constructor; [now apply IH|].
      apply (Permutation_Forall (x := x :: l)).
      * symmetry. apply insertByName_perm.
      * constructor; [|exact Hall].
        destruct (String.leb_total x.(University.name) y.(University.name));
          congruence.
Qed.

Lemma sortByName_sorted (l : list University.t) :
  Conforms.SortedByName (Routes.sortByName l).
Proof.
  induction l as [|x l IH]; cbn; [constructor|].
  now apply insertByName_sorted.
Qed.

(** X13.  The landing page and the report form offer the same list of
    universities: every registry entry exactly once, in ascending order of
    the names, compared character code by character code. *)
Theorem selector_lists_registry_in_order (d : Database)
  (user : SessionUser.t) :
  exists shown : list University.t,
    Routes.home_get d = Shows (P_index shown)
    /\ Routes.report_get d (Some user) = Shows (P_report shown)
    /\ Permutation shown d.(universities)
    /\ Conforms.SortedByName shown.
Proof.
  exists (Routes.sortByName d.(universities)).
  split; [reflexivity|]. split; [reflexivity|].
  split; [apply sortByName_perm | apply sortByName_sorted].
Qed.

End Selector.

(** ** The edit form and the update *)

Module EditForm.

(** X14.  The edit form and the update route accept the same requests.
    A request that is refused the form (no session, no such item, someone
    else's item) is refused the update with the very same response and
    nothing is written; an id that is no ObjectId gets the 500 response of
    either route.  A request that is shown the form is shown the stored
    item with that id, which the requester owns, and its update is not
    refused: it is saved, or fails with the 500 response of the update. *)
Theorem edit_form_and_update_agree (env : Env) (d : Database) (s : Session)
  (id : option ObjectId) (body : ItemForm) (file : option string) :
  let update := Registry.item_update_post env d s id body file in
  (forall r : Response,
      Routes.edit_get d s id = Replies r ->
      update.(db) = d /\ update.(session) = s
      /\ (update.(response) = r
          \/ (id = None /\ r = Send 500 "Error loading edit form"
              /\ update.(response) = Send 500 "Error updating item")))
  /\ (forall page : Page,
        Routes.edit_get d s id = Shows page ->
        exists (user : SessionUser.t) (i : ObjectId) (item : Item.t),
          s = Some user /\ id = Some i
          /\ Model.findItemById i d.(items) = Some item
          /\ item.(Item.reportedBy) = user.(SessionUser.id)
          /\ page = P_edit_item item (Routes.sortByName d.(universities))
          /\ (update.(response) = Redirect "/my-posts"
              \/ update = respond (Send 500 "Error updating item") d s)).
Proof.
  cbv zeta. unfold Routes.edit_get, Registry.item_update_post.
  destruct s as [user|].
  - destruct id as [i|]; cbn [castObjectId bind try_catch].
    + destruct (Model.findItemById i d.(items)) as [item|] eqn:F.
      * destruct (N.eqb item.(Item.reportedBy) user.(SessionUser.id)) eqn:O;
          cbn [negb].
        -- split; [discriminate|]. intros page H. injection H as <-.
           exists user, i, item. apply N.eqb_eq in O.
           repeat split; try assumption.
           destruct file as [buffer|].
           ++ destruct (env.(upload_stream) buffer); cbn [bind try_catch];
                [|now right].
              destruct (Registry.saveItem env item _); cbn; auto.
           ++ cbn [bind].
              destruct (Registry.saveItem env item _); cbn; auto.
        -- split; [|discriminate]. intros r H. injection H as <-.
           cbn. auto.
      * split; [|discriminate]. intros r H. injection H as <-. cbn. auto.
    + split; [|discriminate]. intros r H. injection H as <-. cbn.
      split; [reflexivity|]. split; [reflexivity|]. right. auto.
  - split; [|discriminate]. intros r H. injection H as <-. cbn. auto.
Qed.

Lemma edit_form_and_update_agree_witness :
  Routes.edit_get Sample.campus Sample.as_bob (Some 10%N)
  = Replies (Send 403 "Unauthorized")
  /\ Registry.item_update_post Sample.no_upload Sample.campus Sample.as_bob
       (Some 10%N) (Sample.edit_form "Mine now") None
     = respond (Send 403 "Unauthorized") Sample.campus Sample.as_bob.
Proof.
  split; [reflexivity|].
  destruct (proj1 (edit_form_and_update_agree Sample.no_upload Sample.campus
                     Sample.as_bob (Some 10%N) (Sample.edit_form "Mine now")
                     None) (Send 403 "Unauthorized") eq_refl)
    as (Hd & Hs & [Hr|(Hid & _)]); [|discriminate].
  destruct (Registry.item_update_post Sample.no_upload Sample.campus
              Sample.as_bob (Some 10%N) (Sample.edit_form "Mine now") None)
    as [r d' s'].
  cbn in Hd, Hs, Hr. now subst.
Defined.

End EditForm.

(** ** The two delete routes *)

Module Variants.

(** X15.  The delete route of the hashed variant and that of the registry
    variant treat every request alike: they leave the same database and
    the same session, and they answer with the same status, differing at
    most in the wording of a refusal. *)
Theorem delete_routes_agree (d : Database) (s : Session)
  (id : option ObjectId) :
  let a := HashedRoutes.item_delete_post d s id in
  let b := Registry.item_delete_post d s id in
  a.(db) = b.(db) /\ a.(session) = b.(session)
  /\ status_code a.(response) = status_code b.(response)
  /\ (a.(response) = b.(response)
      \/ exists (status : N) (said says : string),
           a.(response) = Send status said
           /\ b.(response) = Send status says
           /\ (status = 403 \/ status = 404)%N).
Proof.
  cbv zeta. unfold HashedRoutes.item_delete_post, Registry.item_delete_post.
  destruct s as [user|]; [|cbn; auto].
  destruct id as [i|]; cbn [castObjectId bind try_catch]; [|cbn; auto].
  destruct (Model.findItemById i d.(items)) as [item|].
  - destruct (N.eqb item.(Item.reportedBy) user.(SessionUser.id)); cbn.
    + repeat split. now left.
    + repeat split. right.
      exists 403%N, "You are not authorized to delete this post.",
        "Unauthorized.".
      repeat split. now left.
  - cbn. repeat split. right.
    exists 404%N, "Item not found.", "Not found.". repeat split. now right.
Qed.

End Variants.

(** ** The redirect after a report *)

Module UriFacts.

Lemma encode_char_safe (c : ascii) :
  is_query_safe (Uri.encode_char c) = true.
Proof.
  destruct c as [[] [] [] [] [] [] [] []]; vm_compute; reflexivity.
Qed.

Lemma is_query_safe_app (a b : string) :
  is_query_safe a = true -> is_query_safe b = true ->
  is_query_safe (a ++ b) = true.
Proof.
  intros Ha Hb. induction a as [|c a IH]; [exact Hb|].
  cbn [append is_query_safe] in *. apply andb_true_iff in Ha.
  destruct Ha as [Hc Ha]. now rewrite Hc, IH.
Qed.

Lemma encodeURIComponent_safe (s : string) :
  is_query_safe (Uri.encodeURIComponent s) = true.
Proof.
  induction s as [|c s IH]; [reflexivity|]. cbn [Uri.encodeURIComponent].
  apply is_query_safe_app; [apply encode_char_safe | exact IH].
Qed.

Lemma encodeURIComponent_unreserved (s : string) :
  (forall c, In c (list_ascii_of_string s) -> Uri.is_unreserved c = true) ->
  Uri.encodeURIComponent s = s.
Proof.
  induction s as [|c s IH]; intro H; [reflexivity|].
  cbn [Uri.encodeURIComponent]. unfold Uri.encode_char.
  rewrite (H c (or_introl eq_refl)). cbn [append]. f_equal. apply IH.
  intros x Hx. apply H. now right.
Qed.

(** X16.  The redirect that follows a report has the form
    [/items?university=V] in which [V] holds nothing but unreserved
    characters and percent signs: whatever the submitted university is, no
    ampersand, equals sign, hash or space of it reaches the address, and a
    value made of unreserved characters only stands there as it is. *)
Theorem report_redirect_is_one_parameter (env : Env) (d : Database)
  (user : SessionUser.t) (body : ItemForm) (file : option string) :
  let o := Routes.report_post env d (Some user) body file in
  o.(response) = Send 500 "Error submitting report."
  \/ exists (u V : string),
       body.(f_university) = Some u
       /\ o.(response) = Redirect ("/items?university=" ++ V)
       /\ V = Uri.encodeURIComponent u
       /\ is_query_safe V = true
       /\ ((forall c, In c (list_ascii_of_string u) ->
              Uri.is_unreserved c = true) -> V = u).
Proof.
  cbv zeta.
  destruct (Frame.report_cases env d user body file)
    as [E|[url [doc [V E]]]]; rewrite E; [now left|]. right.
  destruct (Posts.validateItem_Ok _ _ _ _ _ _ V)
    as (_ & _ & _ & _ & V5 & _).
  cbn in V5. unfold Schema.set_trim in V5.
  destruct body.(f_university) as [u|] eqn:Eu; [|discriminate].
  exists u, (Uri.encodeURIComponent u). cbn [interpolate respond response].
  repeat split.
  - apply encodeURIComponent_safe.
  - apply encodeURIComponent_unreserved.
Qed.

End UriFacts.

(** ** Ids and the detail page *)

Module Detail.

Lemma map_id_replaceItem (doc : Item.t) (l : list Item.t) :
  map Item._id (Model.replaceItem doc l) = map Item._id l.
Proof.
  induction l as [|i l IH]; [reflexivity|]. cbn [Model.replaceItem].
  destruct (N.eqb i.(Item._id) doc.(Item._id)) eqn:E; cbn [map].
  - apply N.eqb_eq in E. now rewrite E.
  - now rewrite IH.
Qed.

Lemma In_deleteItemById (id : ObjectId) (l : list Item.t) (j : Item.t) :
  In j (Model.deleteItemById id l) -> In j l.
Proof.
  induction l as [|i l IH]; [intros []|]. cbn [Model.deleteItemById].
  destruct (N.eqb i.(Item._id) id); [now right|].
  intros [<-|H]; [now left | right; now apply IH].
Qed.

Lemma NoDup_deleteItemById (id : ObjectId) (l : list Item.t) :
  NoDup (map Item._id l) -> NoDup (map Item._id (Model.deleteItemById id l)).
Proof.
  induction l as [|i l IH]; [trivial|]. cbn [map Model.deleteItemById].
  intro ND. inversion ND as [|? ? Hnotin ND']; subst.
  destruct (N.eqb i.(Item._id) id); [exact ND'|]. cbn [map].
  constructor; [|now apply IH]. intro Hin. apply Hnotin.
  apply in_map_iff in Hin. destruct Hin as [j [Hj Hin]].
  rewrite <- Hj. apply in_map. now apply (In_deleteItemById id).
Qed.

(** X17.  Ids stay unique.  When no two stored items share an id and every
    stored id lies below the next one to be handed out, the same holds
    after any request to the report, update and delete routes. *)
Theorem item_ids_stay_unique (env : Env) (d : Database)
  (user : SessionUser.t) (id : option ObjectId) (body : ItemForm)
  (file : option string) :
  Conforms.ids d ->
  Conforms.ids (Routes.report_post env d (Some user) body file).(db)
  /\ Conforms.ids
       (Registry.item_update_post env d (Some user) id body file).(db)
  /\ Conforms.ids (Registry.item_delete_post d (Some user) id).(db).
Proof.
  unfold Conforms.ids. intros [ND Hlt]. split; [|split].
  - destruct (Frame.report_cases env d user body file)
      as [E|[url [doc [V E]]]]; rewrite E; [now split|].
    cbn [respond db Routes.with_new_item items next_id].
    destruct (Posts.validateItem_Ok _ _ _ _ _ _ V)
      as (_ & _ & _ & _ & _ & _ & _ & _ & V9 & _).
    split.
    + rewrite map_app. cbn [map]. apply Accounts.NoDup_snoc; [exact ND|].
      rewrite V9. intro Hin. apply in_map_iff in Hin.
      destruct Hin as [j [Hj Hin]]. rewrite Forall_forall in Hlt.
      specialize (Hlt j Hin). lia.
    + apply Forall_app. split.
      * eapply Forall_impl; [|exact Hlt]. cbn. intros; lia.
      * constructor; [|constructor]. rewrite V9. lia.
  - destruct (Frame.update_cases env d user id body file)
      as [E|(i & item & saved & p & _ & F & _ & S & _ & _ & _ & _ & E)];
      rewrite E; [now split|].
    cbn [with_items items next_id]. split.
    + now rewrite map_id_replaceItem.
    + apply Validity.Forall_replaceItem; [exact Hlt|].
      destruct (Frame.saveItem_identity _ _ _ _ S) as (Sid & _).
      destruct (Posts.findItemById_Some _ _ _ F) as [Hin _].
      rewrite Forall_forall in Hlt. rewrite Sid. now apply Hlt.
  - destruct (Frame.delete_cases d user id) as [E|(i & item & _ & _ & _ & E)];
      rewrite E; [now split|].
    cbn [with_items items next_id]. split.
    + now apply NoDup_deleteItemById.
    + now apply Validity.Forall_deleteItemById.
Qed.

Lemma item_ids_stay_unique_witness :
  Conforms.ids Sample.campus
  /\ Conforms.ids
       (Routes.report_post Fixture.host Sample.campus Sample.as_bob
          Fixture.umbrella_form (Some "umbrella.png")).(db).
Proof.
  assert (H : Conforms.ids Sample.campus).
  { split.
    - repeat constructor; cbn; intuition discriminate.
    - repeat constructor. }
  split; [exact H|].
  exact (proj1 (item_ids_stay_unique Fixture.host Sample.campus
                  (Registry.sessionOf Sample.bob) None Fixture.umbrella_form
                  (Some "umbrella.png") H)).
Defined.

Lemma saveItem_name (env : Env) (item : Item.t) (p : ItemPaths)
  (saved : Item.t) :
  Registry.saveItem env item p = Ok saved ->
  p.(p_name) = Some saved.(Item.name).
Proof.
  unfold Registry.saveItem. intro H.
  destruct (Model.validateItem _ _ _ _ _) as [doc|] eqn:V; cbn [bind] in H;
    [|discriminate].
  destruct (Posts.validateItem_Ok _ _ _ _ _ _ V) as (V1 & _).
  destruct (Item.same_paths doc item) eqn:S; injection H as <-;
    [|exact V1].
  apply Posts.same_paths_true in S. destruct S as (S1 & _).
  now rewrite <- S1.
Qed.

(** X18.  The detail page reads what was written.  With unique ids, for an
    item its owner may change: after the owner's delete the detail page of
    its id answers 404, and after a successful update it shows the saved
    document, which carries the submitted name, trimmed. *)
Theorem detail_page_reads_the_writes (env : Env) (d : Database)
  (user : SessionUser.t) (i : ObjectId) (item : Item.t) (body : ItemForm)
  (file : option string) :
  NoDup (map Item._id d.(items)) ->
  Model.findItemById i d.(items) = Some item ->
  item.(Item.reportedBy) = user.(SessionUser.id) ->
  Routes.item_get d (Some i) = Shows (P_item_detail item)
  /\ Routes.item_get (Registry.item_delete_post d (Some user) (Some i)).(db)
       (Some i)
     = Replies (Send 404 "Item not found")
  /\ let o := Registry.item_update_post env d (Some user) (Some i) body file in
     (o.(response) = Redirect "/my-posts" ->
      exists doc : Item.t,
        Routes.item_get o.(db) (Some i) = Shows (P_item_detail doc)
        /\ option_map Js.trim body.(f_itemName) = Some doc.(Item.name)
        /\ doc.(Item.reportedBy) = user.(SessionUser.id)).
Proof.
  intros ND F O.
  assert (Eo : N.eqb item.(Item.reportedBy) user.(SessionUser.id) = true)
    by now apply N.eqb_eq.
  destruct (Posts.findItemById_Some _ _ _ F) as [_ Hid].
  assert (Hsaved : forall (p : ItemPaths) (saved : Item.t),
    p.(p_name) = Schema.set_trim body.(f_itemName) ->
    Registry.saveItem env item p = Ok saved ->
    Model.findItemById i (Model.replaceItem saved d.(items)) = Some saved
    /\ option_map Js.trim body.(f_itemName) = Some saved.(Item.name)
    /\ saved.(Item.reportedBy) = user.(SessionUser.id)).
  { intros p saved Ep S.
    destruct (Frame.saveItem_identity _ _ _ _ S) as (Sid & Sown & _).
    split; [|split].
    - rewrite <- Hid. apply Posts.find_after_replace;
        [now rewrite Hid | exact Sid].
    - rewrite <- (saveItem_name _ _ _ _ S). exact (eq_sym Ep).
    - congruence. }
  unfold Routes.item_get. cbn [castObjectId].
  split; [now rewrite F|]. split.
  - unfold Registry.item_delete_post. cbn [castObjectId bind].
    rewrite F, Eo. cbn [negb try_catch respond db with_items items].
    now rewrite (Posts.find_after_delete i _ ND).
  - cbv zeta. unfold Registry.item_update_post. cbn [castObjectId bind].
    rewrite F, Eo. cbn [negb].
    destruct file as [buffer|].
    + destruct (env.(upload_stream) buffer) as [url|];
        cbn [bind try_catch]; [|discriminate].
      destruct (Registry.saveItem env item _) as [saved|] eqn:S;
        cbn [bind try_catch respond response db with_items items];
        [|discriminate].
      intros _. exists saved.
      destruct (Hsaved (Registry.setImageUrl (Registry.assignForm item body)
                          url) saved eq_refl S) as (H1 & H2 & H3).
      rewrite H1. now repeat split.
    + cbn [bind].
      destruct (Registry.saveItem env item _) as [saved|] eqn:S;
        cbn [bind try_catch respond response db with_items items];
        [|discriminate].
      intros _. exists saved.
      destruct (Hsaved (Registry.assignForm item body) saved eq_refl S)
        as (H1 & H2 & H3).
      rewrite H1. now repeat split.
Qed.

Lemma detail_page_reads_the_writes_witness :
  NoDup (map Item._id Sample.campus.(items))
  /\ Routes.item_get
       (Registry.item_delete_post Sample.campus Sample.as_ann
          (Some 10%N)).(db) (Some 10%N)
     = Replies (Send 404 "Item not found").
Proof.
  assert (ND : NoDup (map Item._id Sample.campus.(items)))
    by (repeat constructor; cbn; intuition discriminate).
  split; [exact ND|].
  exact (proj1 (proj2 (detail_page_reads_the_writes Sample.no_upload
                         Sample.campus (Registry.sessionOf Sample.ann) 10%N
                         Sample.bottle (Sample.edit_form "Blue Bottle") None
                         ND eq_refl eq_refl))).
Defined.

End Detail.
